(** * DGE-DSIM: the GraphSim model and its trainer (src/graph_sim.py)

    A shallow embedding of [GraphSim] (feature-width bookkeeping, the
    histogram feature, the shape flow of [forward]) and of
    [GraphSimTrainer] (batching, [process_batch], [validate], [train],
    [test]) together with the properties of the design document that
    can be settled on it.

    Conventions.
    - Python [int] configuration values are [Z]; lengths and indices are
      [nat].
    - Python exceptions are the constructors of [exn].
    - Tensor values are idealised as exact rationals ([Q]); the only
      non-finite values the development needs are the results of
      dividing by zero and of averaging an empty list, which are
      explicit constructors of [pyfloat]. *)

From Stdlib Require Import ZArith QArith Qround Qminmax List Bool Arith Lia.
From Stdlib Require String Permutation Sorted.
Import ListNotations.

Set Implicit Arguments.

(** ** Exceptions raised by the modelled code *)

Inductive exn : Type :=
| ValueError          (* range() arg 3 must not be zero *)
| AttributeError      (* 'int' object has no attribute 'backward'; missing attribute *)
| UnboundLocalError   (* local variable 'hist' referenced before assignment *)
| RuntimeError        (* torch shape mismatch, torch.histc with bins <= 0 *)
| FileNotFoundError   (* torch.load on a path that does not exist *)
| ZeroDivisionError.  (* integer modulo by zero *)

(** A computation that does not touch the trainer's state either
    returns or raises. *)
Inductive result (A : Type) : Type :=
| Ok (a : A)
| Err (e : exn).
Arguments Err {A} e.

(** ** The configuration surface read by graph_sim.py *)

Record Args : Type := mkArgs {
  histogram : bool;
  bins : Z;
  tensor_network : bool;
  tensor_neurons : Z;
  attention_module : bool;
  node_graph_matching : bool;
  hidden_size : Z;
  bottle_neck_neurons : Z;
  batch_size : Z;
  epochs : Z;
  validate_enabled : bool   (* args.validate *)
}.

(** The configuration of the end-to-end scenario of the design
    document: histogram with 8 bins, no tensor network, no node-graph
    matching; 16 tensor neurons. *)
Definition histogram_only_args : Args :=
  mkArgs true 8 false 16 false false 16 16 4 3 true.

Module GraphSim.

(** [GraphSim.calculate_bottleneck_features] (lines 23-33): the value
    stored in [self.feature_count]. *)
Definition calculate_bottleneck_features (args : Args) : Z :=
  let tensor_layer_out := (tensor_neurons args * 2)%Z in
  let feature_count :=
    if histogram args then (tensor_layer_out + bins args)%Z
    else tensor_layer_out in
  if node_graph_matching args
  then (feature_count + hidden_size args * 4)%Z
  else feature_count.

(** The width the design document prescribes (section 4.6): the tensor
    term only when the tensor network is enabled. *)
Definition spec_feature_width (args : Args) : Z :=
  ((if tensor_network args then 2 * tensor_neurons args else 0)
   + (if histogram args then bins args else 0)
   + (if node_graph_matching args then 4 * hidden_size args else 0))%Z.

(** *** Shape flow of [GraphSim.forward] (lines 63-103)

    Only the second dimension of the [1 x w] row vector [scores] is
    tracked. *)

(** Modelled from the spec: layers.py is not part of the sources.  The
    tensor network module returns a column of [tensor_neurons] scores
    (section 4.4), so that [torch.t(torch.cat((scores_node, scores_edge),
    dim=0))] is a row of width [2 * tensor_neurons]. *)
Definition tensor_scores_width (args : Args) : Z :=
  (tensor_neurons args + tensor_neurons args)%Z.

(** Modelled from the spec: layers.py is not part of the sources.  The
    node-graph matching module returns a row of width [4 * hidden_size]
    (section 4.5). *)
Definition node_graph_score_width (args : Args) : Z :=
  (4 * hidden_size args)%Z.

(** Width of [hist] as returned by [calculate_histogram]:
    [torch.histc(_, bins=b)] has [b] entries and rejects [b <= 0]. *)
Definition hist_width (args : Args) : result Z :=
  if (0 <? bins args)%Z then Ok (bins args) else Err RuntimeError.

(** Lines 70-99: the width of [scores] handed to
    [fully_connected_first].  [hist] is bound only when
    [args.histogram] holds, so line 94 raises when neither stream is
    enabled. *)
Definition fused_width (args : Args) : result Z :=
  let hist : result (option Z) :=
    if histogram args
    then match hist_width args with
         | Ok w => Ok (Some w)
         | Err e => Err e
         end
    else Ok None in
  match hist with
  | Err e => Err e
  | Ok hist =>
    let scores : result Z :=
      if tensor_network args then
        match hist with
        | Some w => Ok (tensor_scores_width args + w)%Z   (* line 92 *)
        | None => Ok (tensor_scores_width args)           (* line 89 *)
        end
      else
        match hist with
        | Some w => Ok w                                  (* line 94 *)
        | None => Err UnboundLocalError
        end in
    match scores with
    | Err e => Err e
    | Ok w =>
      if node_graph_matching args
      then Ok (w + node_graph_score_width args)%Z         (* line 99 *)
      else Ok w
    end
  end.

(** Line 101: [torch.nn.Linear(feature_count, _)] applied to a row of
    width [w] raises unless [w = feature_count]. *)
Definition fully_connected_first (args : Args) (w : Z) : result Z :=
  if (w =? calculate_bottleneck_features args)%Z
  then Ok (bottle_neck_neurons args)
  else Err RuntimeError.

(** Lines 101-103: the shape of the value [forward] returns on a model
    that [setup_layers] has constructed; the scoring layer maps the
    bottleneck row to a single column. *)
Definition forward_width (args : Args) : result Z :=
  match fused_width args with
  | Err e => Err e
  | Ok w =>
    match fully_connected_first args w with
    | Err e => Err e
    | Ok _ => Ok 1%Z
    end
  end.

(** The width [forward] fuses when the tensor network is off and the
    histogram is on. *)
Definition histogram_branch_width (args : Args) : Z :=
  (bins args + (if node_graph_matching args then 4 * hidden_size args else 0))%Z.

End GraphSim.

(** ** Floating-point values outside the rationals

    A quotient by zero and the mean of an empty array are not rationals;
    IEEE-754 gives [0/0 = nan] and [x/0 = +-inf] for [x <> 0], and every
    ordered comparison with [nan] is false. *)

Inductive pyfloat : Type :=
| Fin (q : Q)
| Inf (negative : bool)
| NaN.

Definition fdiv (x s : Q) : pyfloat :=
  if Qeq_bool s 0
  then if Qeq_bool x 0 then NaN else Inf (if Qlt_le_dec x 0 then true else false)
  else Fin (x / s).

(** Python's [a < b] on floats. *)
Definition fl_ltb (a b : pyfloat) : bool :=
  match a, b with
  | NaN, _ | _, NaN => false
  | Fin x, Fin y => if Qlt_le_dec x y then true else false
  | Fin _, Inf neg => negb neg
  | Inf neg, Fin _ => neg
  | Inf n1, Inf n2 => n1 && negb n2
  end.

(** Python's [a <= b] on floats. *)
Definition fl_leb (a b : pyfloat) : bool :=
  match a, b with
  | NaN, _ | _, NaN => false
  | Fin x, Fin y => if Qlt_le_dec y x then false else true
  | Fin _, Inf neg => negb neg
  | Inf neg, Fin _ => neg
  | Inf n1, Inf n2 => n1 || negb n2
  end.

Definition sumQ (l : list Q) : Q := fold_left Qplus l 0.

(** [np.mean] of a list of finite values; the mean of an empty list is
    [nan] (numpy only warns). *)
Definition np_mean (l : list Q) : pyfloat :=
  match l with
  | [] => NaN
  | _ => Fin (sumQ l / inject_Z (Z.of_nat (length l)))
  end.

(** ** The histogram feature *)

Module Histogram.

(** A two-dimensional tensor with its shape; shapes with a zero
    dimension are ordinary values, as in torch. *)
Record Matrix : Type := mkMatrix {
  nrows : nat;
  ncols : nat;
  entry : nat -> nat -> Q
}.

Definition dot (n : nat) (u v : nat -> Q) : Q :=
  sumQ (map (fun k => u k * v k) (seq 0 n)).

(** [torch.mm]: inner dimensions must agree. *)
Definition mm (A B : Matrix) : result Matrix :=
  if (ncols A =? nrows B)%nat
  then Ok {| nrows := nrows A;
             ncols := ncols B;
             entry := fun i j => dot (ncols A) (fun k => entry A i k)
                                                (fun k => entry B k j) |}
  else Err RuntimeError.

(** [scores.view(-1, 1)]: the entries in row-major order (a column of
    [nrows * ncols] values, possibly none). *)
Definition view_column (M : Matrix) : list Q :=
  flat_map (fun i => map (fun j => entry M i j) (seq 0 (ncols M)))
           (seq 0 (nrows M)).

Definition list_min (x0 : Q) (l : list Q) : Q := fold_left Qmin l x0.
Definition list_max (x0 : Q) (l : list Q) : Q := fold_left Qmax l x0.

(** The outer bin edges [torch.histc] uses with its default
    [min = max = 0]: the extrema of the data when there is any, and a
    degenerate range widened by one on both sides. *)
Definition histc_edges (l : list Q) : Q * Q :=
  let '(lo, hi) :=
    match l with
    | [] => (0, 0)
    | x :: l' => (list_min x l', list_max x l')
    end in
  if Qeq_bool lo hi then (lo - 1, hi + 1) else (lo, hi).

(** The bin an element falls into: linear position truncated to an
    integer, the rightmost bin closed on the right. *)
Definition bin_index (lo hi : Q) (nbins : Z) (x : Q) : Z :=
  let pos := Qfloor ((x - lo) * inject_Z nbins / (hi - lo)) in
  if (pos =? nbins)%Z then (pos - 1)%Z else pos.

Definition in_range (lo hi x : Q) : bool :=
  (if Qlt_le_dec x lo then false else true)
  && (if Qlt_le_dec hi x then false else true).

Definition bin_count (lo hi : Q) (nbins : Z) (l : list Q) (b : nat) : nat :=
  length (filter (fun x => in_range lo hi x
                           && (bin_index lo hi nbins x =? Z.of_nat b)%Z) l).

(** [torch.histc(l, bins=nbins)]: a tensor of [nbins] counts. *)
Definition histc (l : list Q) (nbins : Z) : result (list Q) :=
  if (nbins <=? 0)%Z then Err RuntimeError
  else
    let '(lo, hi) := histc_edges l in
    Ok (map (fun b => inject_Z (Z.of_nat (bin_count lo hi nbins l b)))
            (seq 0 (Z.to_nat nbins))).

(** [GraphSim.calculate_histogram] (lines 55-61).  The second argument
    is the already transposed embedding matrix, as [forward] passes it. *)
Definition calculate_histogram (args : Args)
    (abstract_features_1 abstract_features_2 : Matrix)
  : result (list pyfloat) :=
  match mm abstract_features_1 abstract_features_2 with
  | Err e => Err e
  | Ok scores =>
    let scores := view_column scores in
    match histc scores (bins args) with
    | Err e => Err e
    | Ok hist =>
      let total := sumQ hist in                       (* torch.sum(hist) *)
      Ok (map (fun c => fdiv c total) hist)           (* hist / total *)
    end
  end.

(** What the design document asks of the degenerate case. *)
Definition zero_histogram (args : Args) : list pyfloat :=
  repeat (Fin 0) (Z.to_nat (bins args)).

(** Embedding matrices of width 2: a graph without nodes, a graph with
    two nodes, and a graph with three nodes (already transposed). *)
Definition no_nodes : Matrix := mkMatrix 0 2 (fun _ _ => 0).
Definition three_nodes_t : Matrix :=
  mkMatrix 2 3 (fun i j => inject_Z (Z.of_nat (i + j))).
Definition two_nodes : Matrix :=
  mkMatrix 2 2 (fun i j => inject_Z (Z.of_nat (2 * i + j))).

(** The embedding matrix of the same graph with its nodes listed in
    another order: row [i] is row [sigma i] of [A] (for the transposed
    matrix that [calculate_histogram] takes second, the columns). *)
Definition permute_rows (sigma : nat -> nat) (A : Matrix) : Matrix :=
  mkMatrix (nrows A) (ncols A) (fun i j => entry A (sigma i) j).

Definition permute_cols (tau : nat -> nat) (B : Matrix) : Matrix :=
  mkMatrix (nrows B) (ncols B) (fun i j => entry B i (tau j)).

End Histogram.

(** ** The trainer *)

Module Trainer.

(** The [mode] argument of [Dataset.get_data]. *)
Inductive Mode : Type := Training | Validation | Test.

(** The collaborators of graph_sim.py that are outside the sources:
    dataset.py ([Dataset]), layers.py (the layers behind
    [GraphSim.forward]), utils.py and the tensor framework (autograd,
    Adam).  The trainer is verified against any implementation of this
    interface. *)
Class Collaborators : Type := {
  Params : Type;        (* the contents of model.state_dict() *)
  OptState : Type;      (* the state of torch.optim.Adam *)
  Grad : Type;          (* the .grad buffers of the parameters *)
  Pair : Type;          (* a graph index pair *)
  Bundle : Type;        (* the dict returned by transfer_to_torch *)
  (* dataset.py *)
  training_graph_index_pairs : list Pair;
  validation_graph_index_pairs : list Pair;
  test_graph_index_pairs : list Pair;
  test_graphs_len : nat;                          (* len(dataset.test_graphs) *)
  get_data : Pair -> Mode -> Bundle;              (* transfer_to_torch(get_data(pair, mode)) *)
  target : Bundle -> Q;                           (* data["target"] *)
  (* the model: self.model(data), in train mode or in eval mode *)
  model : bool -> Params -> Bundle -> Q;
  (* autograd and Adam *)
  grad_zero : Grad;
  backward : bool -> Params -> list Bundle -> Grad -> Grad;
  adam_init : Args -> Params -> OptState;
  adam_step : OptState -> Params -> Grad -> OptState * Params;
  (* utils.py *)
  calculate_loss : Q -> Q -> Q;
  prec_at_ks : list Q -> list Q -> Z -> Q
}.

Section Definitions.
Context {C : Collaborators}.

(** What the trainer does to the optimizer and to the file at
    [args.best_model_path], in program order. *)
Inductive event : Type :=
| EvZeroGrad                 (* optimizer.zero_grad() *)
| EvBackward                 (* losses.backward(retain_graph=True) *)
| EvStep                     (* optimizer.step() *)
| EvSave (p : Params)        (* torch.save(state_dict, best_model_path) *)
| EvLoad.                    (* torch.load(best_model_path) *)

(** The mutable state [GraphSimTrainer] methods act on.  [min_error],
    [best_epoch_index], [epoch_loss_list] and [loss_sum] are attributes
    that [train] creates (lines 178-186) before [validate] or the batch
    loop read them; [optimizer] is [None] until line 171 creates it.
    [disk] is the content of the file at [args.best_model_path]. *)
Record Trainer : Type := mkTrainer {
  params : Params;
  grads : Grad;
  training : bool;                  (* model.train() / model.eval() *)
  optimizer : option OptState;
  min_error : pyfloat;
  best_epoch_index : nat;
  epoch_loss_list : list pyfloat;
  loss_sum : Q;
  disk : option Params;
  trace : list event
}.

(** A method call returns a value or raises; either way the object keeps
    the mutations made so far. *)
Inductive outcome (A : Type) : Type :=
| Ret (a : A) (st : Trainer)
| Raise (e : exn) (st : Trainer).
Arguments Raise {A} e st.

Definition M (A : Type) : Type := Trainer -> outcome A.

Definition ret {A} (a : A) : M A := fun st => Ret a st.
Definition raise {A} (e : exn) : M A := fun st => Raise e st.
Definition bind {A B} (m : M A) (k : A -> M B) : M B :=
  fun st => match m st with
            | Ret a st' => k a st'
            | Raise e st' => Raise e st'
            end.
Definition get : M Trainer := fun st => Ret st st.
Definition modify (f : Trainer -> Trainer) : M unit := fun st => Ret tt (f st).
Definition lift {A} (r : result A) : M A :=
  match r with
  | Ok a => ret a
  | Err e => raise e
  end.

Definition final_state {A} (o : outcome A) : Trainer :=
  match o with
  | Ret _ st => st
  | Raise _ st => st
  end.

End Definitions.

Arguments Raise {C A} e st.

Declare Scope trainer_scope.
Delimit Scope trainer_scope with trainer.
Notation "x <- m ;; k" := (bind m (fun x => k))
  (at level 61, m at next level, right associativity) : trainer_scope.
Notation "m ;; k" := (bind m (fun _ => k))
  (at level 61, right associativity) : trainer_scope.

Section Methods.
Context {C : Collaborators}.
Variable args : Args.
Local Open Scope trainer_scope.

Definition log (e : event) : M unit :=
  modify (fun st => mkTrainer (params st) (grads st) (training st)
                      (optimizer st) (min_error st) (best_epoch_index st)
                      (epoch_loss_list st) (loss_sum st) (disk st)
                      (trace st ++ [e])).

Definition set_training (b : bool) : M unit :=
  modify (fun st => mkTrainer (params st) (grads st) b
                      (optimizer st) (min_error st) (best_epoch_index st)
                      (epoch_loss_list st) (loss_sum st) (disk st) (trace st)).

Definition set_grads (g : Grad) : M unit :=
  modify (fun st => mkTrainer (params st) g (training st)
                      (optimizer st) (min_error st) (best_epoch_index st)
                      (epoch_loss_list st) (loss_sum st) (disk st) (trace st)).

Definition set_optimizer_params (o : OptState) (p : Params) : M unit :=
  modify (fun st => mkTrainer p (grads st) (training st)
                      (Some o) (min_error st) (best_epoch_index st)
                      (epoch_loss_list st) (loss_sum st) (disk st) (trace st)).

Definition set_loss_sum (q : Q) : M unit :=
  modify (fun st => mkTrainer (params st) (grads st) (training st)
                      (optimizer st) (min_error st) (best_epoch_index st)
                      (epoch_loss_list st) q (disk st) (trace st)).

(** [range(0, n, step)]: raises on a zero step, is empty for a negative
    one, and otherwise lists [0, step, 2*step, ...] below [n]. *)
Definition py_range_step (n : nat) (step : Z) : result (list nat) :=
  if (step =? 0)%Z then Err ValueError
  else if (step <? 0)%Z then Ok []
  else let s := Z.to_nat step in
       Ok (map (fun i => i * s)%nat (seq 0 ((n + s - 1) / s))).

(** The slice [l[i : j]] for [0 <= i <= j]. *)
Definition slice {A} (l : list A) (i j : nat) : list A :=
  firstn (j - i) (skipn i l).

(** [GraphSimTrainer.create_batches] (lines 127-132). *)
Definition create_batches : result (list (list Pair)) :=
  match py_range_step (length training_graph_index_pairs) (batch_size args) with
  | Err e => Err e
  | Ok starts =>
    Ok (map (fun graph_pair_index =>
               slice training_graph_index_pairs graph_pair_index
                     (graph_pair_index + Z.to_nat (batch_size args)))
            starts)
  end.

(** [tnfunc.mse_loss(input, target)] on single-element tensors. *)
Definition mse_loss (input tgt : Q) : Q := (input - tgt) * (input - tgt).

(** The per-pair losses of a batch, in batch order (lines 138-141). *)
Definition pair_losses (st : Trainer) (batch : list Pair) : list Q :=
  map (fun graph_index_pair =>
         let data := get_data graph_index_pair Training in
         let prediction := model (training st) (params st) data in
         mse_loss (target data) prediction)
      batch.

(** [GraphSimTrainer.process_batch] (lines 134-145).  [losses] starts
    as the integer [0]; when the loop body never runs it is still an
    integer at line 142, which has no [backward]. *)
Definition process_batch (batch : list Pair) : M Q :=
  st0 <- get ;;
  match optimizer st0 with
  | None => raise AttributeError                       (* self.optimizer *)
  | Some o =>
    set_grads grad_zero ;; log EvZeroGrad ;;           (* line 135 *)
    st <- get ;;
    let losses := fold_left Qplus (pair_losses st batch) 0 in
    match batch with
    | [] => raise AttributeError                       (* line 142 *)
    | _ =>
      set_grads (backward (training st) (params st)
                   (map (fun p => get_data p Training) batch) (grads st)) ;;
      log EvBackward ;;                                (* line 142 *)
      st <- get ;;
      let '(o', p') := adam_step o (params st) (grads st) in
      set_optimizer_params o' p' ;; log EvStep ;;      (* line 143 *)
      ret losses                                       (* lines 144-145 *)
    end
  end.

(** [torch.save(self.model.state_dict(), self.args.best_model_path)]. *)
Definition save_best : M unit :=
  st <- get ;;
  modify (fun st => mkTrainer (params st) (grads st) (training st)
                      (optimizer st) (min_error st) (best_epoch_index st)
                      (epoch_loss_list st) (loss_sum st) (Some (params st))
                      (trace st)) ;;
  log (EvSave (params st)).

(** [self.model.load_state_dict(torch.load(self.args.best_model_path))]. *)
Definition load_best : M unit :=
  log EvLoad ;;
  st <- get ;;
  match disk st with
  | None => raise FileNotFoundError
  | Some p =>
    modify (fun st => mkTrainer p (grads st) (training st)
                        (optimizer st) (min_error st) (best_epoch_index st)
                        (epoch_loss_list st) (loss_sum st) (disk st) (trace st))
  end.

(** The validation error of the current parameters (lines 151-160);
    [ground_truth] is filled but never read in [validate]. *)
Definition validation_error (p : Params) : pyfloat :=
  np_mean (map (fun graph_index_pair =>
                  let data := get_data graph_index_pair Validation in
                  let tgt := target data in
                  let prediction := model false p data in
                  calculate_loss prediction tgt)
               validation_graph_index_pairs).

(** [GraphSimTrainer.validate] (lines 147-166). *)
Definition validate (index : nat) : M unit :=
  set_training false ;;                                (* line 149 *)
  st <- get ;;
  let model_error := validation_error (params st) in
  modify (fun st => mkTrainer (params st) (grads st) (training st)
                      (optimizer st) (min_error st) (best_epoch_index st)
                      (epoch_loss_list st ++ [model_error])
                      (loss_sum st) (disk st) (trace st)) ;;   (* line 161 *)
  st <- get ;;
  if fl_ltb model_error (min_error st) then            (* line 163 *)
    modify (fun st => mkTrainer (params st) (grads st) (training st)
                        (optimizer st) model_error index
                        (epoch_loss_list st) (loss_sum st) (disk st)
                        (trace st)) ;;                 (* lines 164-165 *)
    save_best                                          (* line 166 *)
  else ret tt.

(** The batch loop of an epoch (lines 187-193); the progress-bar text is
    not part of the state.  Returns [main_index]. *)
Fixpoint batch_loop (batches : list (list Pair)) (main_index : nat) : M nat :=
  match batches with
  | [] => ret main_index
  | batch :: rest =>
    loss_score <- process_batch batch ;;
    let main_index := (main_index + length batch)%nat in
    st <- get ;;
    set_loss_sum (loss_sum st + loss_score * inject_Z (Z.of_nat (length batch))) ;;
    match main_index with
    | O => raise ZeroDivisionError                     (* line 192 *)
    | _ => batch_loop rest main_index
    end
  end.

(** One iteration of the epoch loop (lines 184-195). *)
Definition run_epoch (epoch_index : nat) : M unit :=
  set_training true ;;                                 (* line 184 *)
  batches <- lift create_batches ;;
  set_loss_sum 0 ;;
  _ <- batch_loop batches 0 ;;
  if validate_enabled args then validate epoch_index else ret tt.

Fixpoint for_each {A} (l : list A) (body : A -> M unit) : M unit :=
  match l with
  | [] => ret tt
  | x :: l' => body x ;; for_each l' body
  end.

(** Lines 171-181: the optimizer and the run attributes. *)
Definition train_init : M unit :=
  modify (fun st => mkTrainer (params st) (grads st) (training st)
                      (Some (adam_init args (params st)))
                      (Fin 100) 0%nat [] (loss_sum st) (disk st) (trace st)).

(** [range(self.args.epochs)] *)
Definition epoch_indices : list nat := seq 0 (Z.to_nat (epochs args)).

(** The trainer after [train]'s initialisation and the first [n]
    epochs. *)
Definition train_epochs (n : nat) : M unit :=
  train_init ;; for_each (seq 0 n) run_epoch.

(** [GraphSimTrainer.train] (lines 168-198). *)
Definition train : M unit :=
  train_init ;;
  for_each epoch_indices run_epoch ;;
  if validate_enabled args then load_best else ret tt.

(** *** Testing *)

Record TestReport : Type := mkReport {
  scores : list Q;
  ground_truth : list Q;
  prediction_list : list Q;
  prec_at_10_list : list Q;
  prec_at_20_list : list Q
}.

(** The loop of [test] (lines 214-230) from position [index] on, with
    the block accumulators [temp_gt], [temp_pre]. *)
Fixpoint test_loop (p : Params) (pairs : list Pair) (index : nat)
    (temp_gt temp_pre : list Q) (r : TestReport) : result TestReport :=
  match pairs with
  | [] => Ok r
  | test_index_pair :: rest =>
    let data := get_data test_index_pair Test in
    let tgt := target data in
    let prediction := model false p data in
    let temp_gt := temp_gt ++ [tgt] in
    let temp_pre := temp_pre ++ [prediction] in
    let r := mkReport (scores r ++ [calculate_loss prediction tgt])
                      (ground_truth r ++ [tgt])
                      (prediction_list r ++ [prediction])
                      (prec_at_10_list r) (prec_at_20_list r) in
    match test_graphs_len with
    | O => Err ZeroDivisionError                       (* line 224 *)
    | _ =>
      if ((index + 1) mod test_graphs_len =? 0)%nat then
        let r := mkReport (scores r) (ground_truth r) (prediction_list r)
                   (prec_at_10_list r ++ [prec_at_ks temp_gt temp_pre 10])
                   (prec_at_20_list r ++ [prec_at_ks temp_gt temp_pre 20]) in
        test_loop p rest (S index) [] [] r
      else test_loop p rest (S index) temp_gt temp_pre r
    end
  end.

(** The end of [print_evaluation] (lines 255-258), called from line 237
    of [test]: with [args.validate] on it reads [epoch_loss_list],
    [best_epoch_index] and [min_error].  These attributes exist only
    once [train] has run lines 171-181, which create them together with
    the optimizer; on a trainer that never trained the read raises
    AttributeError. *)
Definition print_evaluation_bookkeeping : M unit :=
  st <- get ;;
  if validate_enabled args then
    match optimizer st with
    | None => raise AttributeError
    | Some _ => ret tt
    end
  else ret tt.

(** [GraphSimTrainer.test] (lines 200-237): the loop, then the report
    (lines 232-237); the value is the arrays and the two precision
    lists that the report is computed from. *)
Definition test : M TestReport :=
  set_training false ;;                                (* line 204 *)
  st <- get ;;
  r <- lift (test_loop (params st) test_graph_index_pairs 0 [] []
               (mkReport [] [] [] [] [])) ;;
  print_evaluation_bookkeeping ;;                      (* line 237 *)
  ret r.

End Methods.

(** *** Declarative notions used by the statements *)

Section Notions.
Context {C : Collaborators}.
Variable args : Args.

(** [k] is the first position of a finite minimum [m] of [es]. *)
Definition first_argmin (es : list pyfloat) (k : nat) (m : Q) : Prop :=
  nth_error es k = Some (Fin m)
  /\ (forall j e, nth_error es j = Some e -> fl_ltb e (Fin m) = false)
  /\ (forall j e, (j < k)%nat -> nth_error es j = Some e ->
                  fl_leb e (Fin m) = false).

Definition count_event (f : event -> bool) (t : list event) : nat :=
  length (filter f t).

Definition is_zero_grad (e : event) : bool :=
  match e with EvZeroGrad => true | _ => false end.
Definition is_step (e : event) : bool :=
  match e with EvStep => true | _ => false end.
Definition is_save (e : event) : bool :=
  match e with EvSave _ => true | _ => false end.
Definition is_load (e : event) : bool :=
  match e with EvLoad => true | _ => false end.

(** The trainer after a successful [process_batch]. *)
Definition after_batch (st : Trainer) (o : OptState) (batch : list Pair)
  : Trainer :=
  let g := backward (training st) (params st)
                    (map (fun p => get_data p Training) batch) grad_zero in
  let op := adam_step o (params st) g in
  mkTrainer (snd op) g (training st) (Some (fst op)) (min_error st)
            (best_epoch_index st) (epoch_loss_list st) (loss_sum st) (disk st)
            (trace st ++ [EvZeroGrad; EvBackward; EvStep]).

(** The trainer after [validate index]. *)
Definition after_validate (index : nat) (st : Trainer) : Trainer :=
  let e := validation_error (params st) in
  if fl_ltb e (min_error st)
  then mkTrainer (params st) (grads st) false (optimizer st) e index
                 (epoch_loss_list st ++ [e]) (loss_sum st)
                 (Some (params st)) (trace st ++ [EvSave (params st)])
  else mkTrainer (params st) (grads st) false (optimizer st) (min_error st)
                 (best_epoch_index st) (epoch_loss_list st ++ [e])
                 (loss_sum st) (disk st) (trace st).

(** What the batch phase leaves alone: the validation bookkeeping and
    the checkpoint file. *)
Definition batch_frame (st st' : Trainer) : Prop :=
  min_error st' = min_error st
  /\ best_epoch_index st' = best_epoch_index st
  /\ epoch_loss_list st' = epoch_loss_list st
  /\ disk st' = disk st
  /\ count_event is_save (trace st') = count_event is_save (trace st)
  /\ optimizer st' <> None.

(** The trainer after lines 171-181 of [train]. *)
Definition init_state (st : Trainer) : Trainer :=
  mkTrainer (params st) (grads st) (training st)
            (Some (adam_init args (params st)))
            (Fin 100) 0%nat [] (loss_sum st) (disk st) (trace st).

(** The history holds one validation error per epoch run so far. *)
Definition history_recorded (st0 st : Trainer) (n : nat) : Prop :=
  length (epoch_loss_list st) = n
  /\ forall k e, nth_error (epoch_loss_list st) k = Some e ->
       exists st_k, train_epochs args (S k) st0 = Ret tt st_k
                    /\ e = validation_error (params st_k).

(** Either no epoch got below the sentinel and the checkpoint file is
    untouched, or the bookkeeping and the file describe the first epoch
    that reached the minimum. *)
Definition best_tracked (st0 st : Trainer) : Prop :=
  (min_error st = Fin 100
   /\ best_epoch_index st = 0%nat
   /\ disk st = disk st0
   /\ count_event is_save (trace st) = count_event is_save (trace st0)
   /\ forall e, In e (epoch_loss_list st) -> fl_ltb e (Fin 100) = false)
  \/ (exists k m st_k,
        first_argmin (epoch_loss_list st) k m
        /\ m < 100
        /\ min_error st = Fin m
        /\ best_epoch_index st = k
        /\ train_epochs args (S k) st0 = Ret tt st_k
        /\ disk st = Some (params st_k)).

(** The trainer after [self.model.eval()]. *)
Definition eval_mode (st : Trainer) : Trainer :=
  mkTrainer (params st) (grads st) false (optimizer st) (min_error st)
            (best_epoch_index st) (epoch_loss_list st) (loss_sum st)
            (disk st) (trace st).

(** The targets and the predictions of the test pairs, in test order,
    and the [k]-th block of [len(test_graphs)] consecutive entries. *)
Definition test_targets : list Q :=
  map (fun pair => target (get_data pair Test)) test_graph_index_pairs.

Definition test_predictions (p : Params) : list Q :=
  map (fun pair => model false p (get_data pair Test)) test_graph_index_pairs.

Definition test_block {A} (l : list A) (k : nat) : list A :=
  slice l (k * test_graphs_len) (k * test_graphs_len + test_graphs_len).



(** [np.mean([(n - mean) ** 2 for n in l])] with [mean = np.mean(l)]. *)
Definition mean_squared_deviation (l : list Q) : pyfloat :=
  match np_mean l with
  | Fin mean => np_mean (map (fun n => (n - mean) * (n - mean)) l)
  | _ => np_mean []
  end.

(** Lines 240-243 of [print_evaluation]: the four statistics it prints
    first. *)
Record Evaluation : Type := mkEvaluation {
  delta : pyfloat;
  mean_ground_truth : pyfloat;
  predicted_delta : pyfloat;
  mean_predicted : pyfloat
}.

Definition print_evaluation (r : TestReport) : Evaluation :=
  mkEvaluation (mean_squared_deviation (ground_truth r))
               (np_mean (ground_truth r))
               (mean_squared_deviation (prediction_list r))
               (np_mean (prediction_list r)).

End Notions.

(** *** A concrete implementation of the collaborators *)

(** A small implementation of the collaborators: a model with a single
    weight that ignores its input, a gradient of 1 per backward pass, an
    optimizer that subtracts the gradient, four training pairs, two
    validation pairs, three test pairs and two test graphs. *)
Definition toy (loss : Q -> Q -> Q) : Collaborators := {|
  Params := Q;
  OptState := unit;
  Grad := Q;
  Pair := nat;
  Bundle := nat;
  training_graph_index_pairs := [0; 1; 2; 3]%nat;
  validation_graph_index_pairs := [0; 1]%nat;
  test_graph_index_pairs := [0; 1; 2]%nat;
  test_graphs_len := 2;
  get_data := fun p _ => p;
  target := fun b => inject_Z (Z.of_nat b);
  model := fun _ w _ => w;
  grad_zero := 0;
  backward := fun _ _ _ g => g + 1;
  adam_init := fun _ _ => tt;
  adam_step := fun _ w g => (tt, w - g);
  calculate_loss := loss;
  prec_at_ks := fun _ _ _ => 0
|}.

(** A freshly constructed toy trainer with weight [w] and file content
    [d] at the best-model path. *)
Definition toy_trainer (loss : Q -> Q -> Q) (w : Q) (d : option Q)
  : @Trainer (toy loss) :=
  @mkTrainer (toy loss) w 0 false None NaN 0 [] 0 d [].

(** The same trainer once [train] has created its optimizer. *)
Definition toy_trainer_ready (loss : Q -> Q -> Q) (w : Q)
  : @Trainer (toy loss) :=
  @mkTrainer (toy loss) w 0 true (Some tt) (Fin 100) 0 [] 0 None [].

(** Two per-pair metrics for [calculate_loss]: one that dips to zero at
    prediction 1, one that never goes below 100. *)
Definition dip_loss (prediction tgt : Q) : Q :=
  (prediction - 1) * (prediction - 1).
Definition high_loss (prediction tgt : Q) : Q := 100 + prediction.

End Trainer.

(** ** Checkpoint paths, [save] and [load] *)

Module Checkpoints.
Import Stdlib.Strings.String.
Local Open Scope string_scope.

(** The paths [GraphSimTrainer.__init__] derives (lines 113-121). *)
Record Paths : Type := mkPaths {
  dataset_path : string;
  training_root_path : string;
  test_root_path : string;
  ged_path : string;
  save_path : string;
  best_model_path : string;
  load_path : string
}.

Definition init_paths (dataset_root_path current_dataset_name filename : string)
  : Paths :=
  {| dataset_path := (((dataset_root_path ++ current_dataset_name) ++ "/")
                      ++ current_dataset_name) ++ "_dataset.pkl";
     training_root_path := (dataset_root_path ++ current_dataset_name) ++ "/train/";
     test_root_path := (dataset_root_path ++ current_dataset_name) ++ "/test/";
     ged_path := (((dataset_root_path ++ current_dataset_name) ++ "/")
                  ++ current_dataset_name) ++ "_ged.pkl";
     save_path := "../pretrained_models/" ++ filename;
     best_model_path := ("../pretrained_models/" ++ filename) ++ "-best-val";
     load_path := "../pretrained_models/" ++ filename |}.

Section Files.
Variable P : Type.   (* the contents of model.state_dict() *)

(** The checkpoint files: what [torch.load] finds at each path.  Paths
    are compared as strings; two spellings of one file are not
    identified. *)
Definition Files : Type := string -> option P.

Definition write (fs : Files) (path : string) (p : P) : Files :=
  fun q => if (q =? path)%string then Some p else fs q.

(** The trainer as [save] and [load] see it: the live parameters and the
    files. *)
Record Host : Type := mkHost {
  live : P;
  files : Files
}.

(** [GraphSimTrainer.save] (lines 260-263); the argument is the
    optional [path], the empty string standing for its default. *)
Definition save (paths : Paths) (path : string) (h : Host) : Host :=
  let path := if (path =? EmptyString)%string then save_path paths else path in
  mkHost (live h) (write (files h) path (live h)).

(** [GraphSimTrainer.load] (lines 265-266). *)
Definition load (paths : Paths) (h : Host) : result Host :=
  match files h (load_path paths) with
  | Some p => Ok (mkHost p (files h))
  | None => Err FileNotFoundError
  end.

(** Line 166 of [validate] and line 198 of [train], on the same files. *)
Definition save_best_file (paths : Paths) (h : Host) : Host :=
  mkHost (live h) (write (files h) (best_model_path paths) (live h)).

Definition load_best_file (paths : Paths) (h : Host) : result Host :=
  match files h (best_model_path paths) with
  | Some p => Ok (mkHost p (files h))
  | None => Err FileNotFoundError
  end.

(** [save] on a file system that may refuse the write.  [writable p]
    says whether [torch.save] can create the file [p]: it cannot when
    [p] names a directory (an empty filename makes the default save
    path the directory ../pretrained_models/), when the parent
    directory is missing or when the location is read-only; the call
    then raises and writes nothing. *)
Inductive save_outcome : Type :=
| Saved (h : Host)
| SaveFailed.

Definition save_to_disk (writable : string -> bool) (paths : Paths)
    (path : string) (h : Host) : save_outcome :=
  let target := if (path =? EmptyString)%string then save_path paths else path in
  if writable target then Saved (save paths path h) else SaveFailed.

(** An optimizer step, or anything else that replaces the live
    parameters. *)
Definition set_live (p : P) (h : Host) : Host := mkHost p (files h).

(** The parameters a load installed, if it returned. *)
Definition loaded (r : result Host) : option P :=
  match r with
  | Ok h => Some (live h)
  | Err _ => None
  end.

End Files.

End Checkpoints.

(** ** Ranking the candidates of a query graph *)

Module Query.
Import Trainer.

(** The only exception the list handling of [show_model_query] can
    raise. *)
Inductive query_exn : Type := IndexError.

Inductive qresult (A : Type) : Type :=
| QOk (a : A)
| QErr (e : query_exn).
Arguments QErr {A} e.

(** Python's [l[i]]: a negative index counts from the end, an index
    outside [-len(l), len(l))] raises IndexError. *)
Definition py_index {A} (l : list A) (i : Z) : qresult A :=
  let j := if (i <? 0)%Z then (i + Z.of_nat (length l))%Z else i in
  if (j <? 0)%Z then QErr IndexError
  else match nth_error l (Z.to_nat j) with
       | Some a => QOk a
       | None => QErr IndexError
       end.

Fixpoint mapM {A B} (f : A -> qresult B) (l : list A) : qresult (list B) :=
  match l with
  | [] => QOk []
  | a :: l' =>
    match f a with
    | QErr e => QErr e
    | QOk b =>
      match mapM f l' with
      | QErr e => QErr e
      | QOk bs => QOk (b :: bs)
      end
    end
  end.

Section ShowModelQuery.
Context {C : Collaborators}.
Variables Path Id : Type.
Variable test_paths : list Path.            (* dataset.test_paths *)
Variable training_paths : list Path.        (* dataset.training_paths *)
Variable get_file_id_from_path : Path -> Id.
Variables key0 key1 : Pair -> Z.            (* key[0], key[1] *)

(** [list.sort(key=lambda x: x[1])]: the stable ascending sort by score,
    written as an insertion sort that keeps equal scores in their
    original order. *)
Fixpoint insert (x : Id * Q) (l : list (Id * Q)) : list (Id * Q) :=
  match l with
  | [] => [x]
  | y :: l' =>
    if Qle_bool (snd x) (snd y) then x :: y :: l' else y :: insert x l'
  end.

Fixpoint sort_by_score (l : list (Id * Q)) : list (Id * Q) :=
  match l with
  | [] => []
  | x :: l' => insert x (sort_by_score l')
  end.

(** Lines 325-328: one entry per test pair of the query graph, in test
    order. *)
Fixpoint rank_entries (p : Params) (query_graph_index : Z) (pairs : list Pair)
  : qresult (list (Id * Q)) :=
  match pairs with
  | [] => QOk []
  | key :: rest =>
    if (key0 key =? query_graph_index)%Z then
      let score := model false p (get_data key Test) in
      match py_index training_paths (key1 key) with
      | QErr e => QErr e
      | QOk path =>
        match rank_entries p query_graph_index rest with
        | QErr e => QErr e
        | QOk entries => QOk ((get_file_id_from_path path, score) :: entries)
        end
      end
    else rank_entries p query_graph_index rest
  end.

(** Lines 331-352: the entries printed, in print order: positions 0 to
    4, position 400, positions -1 to -5. *)
Definition shown (l : list (Id * Q)) : qresult (list (Id * Q)) :=
  match mapM (fun i => py_index l (Z.of_nat i)) (seq 0 5) with
  | QErr e => QErr e
  | QOk lowest =>
    match py_index l 400 with
    | QErr e => QErr e
    | QOk middle =>
      match mapM (fun i => py_index l (- Z.of_nat i)) (seq 1 5) with
      | QErr e => QErr e
      | QOk highest => QOk (lowest ++ [middle] ++ highest)
      end
    end
  end.

(** [GraphSimTrainer.show_model_query] (lines 311-352), as the list of
    (graph id, predicted similarity) pairs it prints; reading and
    drawing the graphs is left out. *)
Definition show_model_query (p : Params) (query_graph_index : Z)
  : qresult (list (Id * Q)) :=
  match py_index test_paths query_graph_index with
  | QErr e => QErr e
  | QOk _ =>
    match rank_entries p query_graph_index test_graph_index_pairs with
    | QErr e => QErr e
    | QOk n_gSim_rank_id_list => shown (sort_by_score n_gSim_rank_id_list)
    end
  end.

(** Ascending by score, as a property of positions. *)
Definition ascending (l : list (Id * Q)) : Prop :=
  forall i j d, (i <= j < length l)%nat -> snd (nth i l d) <= snd (nth j l d).

(** The test pairs of a query graph. *)
Definition candidates (query_graph_index : Z) : list Pair :=
  filter (fun key => (key0 key =? query_graph_index)%Z) test_graph_index_pairs.

End ShowModelQuery.

(** Collaborators with 401 test pairs, all of query graph 0, the
    model giving pair [b] the score [400 - b]. *)
Definition many_pairs : Collaborators := {|
  Params := unit;
  OptState := unit;
  Grad := unit;
  Pair := nat;
  Bundle := nat;
  training_graph_index_pairs := [];
  validation_graph_index_pairs := [];
  test_graph_index_pairs := seq 0 401;
  test_graphs_len := 1;
  get_data := fun p _ => p;
  target := fun _ => 1;
  model := fun _ _ b => inject_Z (Z.of_nat (400 - b));
  grad_zero := tt;
  backward := fun _ _ _ g => g;
  adam_init := fun _ _ => tt;
  adam_step := fun _ w _ => (tt, w);
  calculate_loss := fun prediction tgt => prediction - tgt;
  prec_at_ks := fun _ _ _ => 0
|}.

End Query.

(** * Properties *)

Import GraphSim Histogram.

Lemma Ok_inj {A} (a b : A) : Ok a = Ok b -> a = b.
Proof. congruence. Qed.

(** ** Feature width *)

(** The stored [feature_count] carries the tensor term whatever the
    [tensor_network] flag says. *)
Lemma feature_count_closed_form (args : Args) :
  calculate_bottleneck_features args
  = (2 * tensor_neurons args
     + (if histogram args then bins args else 0)
     + (if node_graph_matching args then 4 * hidden_size args else 0))%Z.
Proof.
  unfold calculate_bottleneck_features.
  destruct (histogram args), (node_graph_matching args); lia.
Qed.

Lemma feature_count_vs_spec (args : Args) :
  calculate_bottleneck_features args
  = (spec_feature_width args
     + (if tensor_network args then 0 else 2 * tensor_neurons args))%Z.
Proof.
  rewrite feature_count_closed_form. unfold spec_feature_width.
  destruct (tensor_network args); lia.
Qed.

(** C1: at the histogram-only configuration with 8 bins and 16 tensor
    neurons the code stores [feature_count = 40], where the prescribed
    width (and the width [forward] really produces) is 8; the first
    fully-connected layer then rejects the fused row. *)
Theorem C1_feature_count_histogram_only :
  calculate_bottleneck_features histogram_only_args = 40%Z
  /\ spec_feature_width histogram_only_args = 8%Z
  /\ fused_width histogram_only_args = Ok 8%Z
  /\ forward_width histogram_only_args = Err RuntimeError.
Proof. repeat split; reflexivity. Qed.

Lemma fused_width_histogram_branch (args : Args) (w : Z) :
  tensor_network args = false -> histogram args = true ->
  fused_width args = Ok w -> w = histogram_branch_width args.
Proof.
  unfold fused_width, hist_width, histogram_branch_width, node_graph_score_width.
  intros -> ->.
  destruct (0 <? bins args)%Z; [| discriminate].
  destruct (node_graph_matching args); intros E%Ok_inj; lia.
Qed.

(** C9, as stated, fails with zero tensor neurons: the fused width then
    equals [feature_count] and the bottleneck layer accepts it. *)
Lemma C9_counterexample_zero_tensor_neurons :
  ~ (forall args : Args,
        tensor_network args = false -> histogram args = true ->
        (histogram_branch_width args < calculate_bottleneck_features args)%Z
        /\ exists e, forward_width args = Err e).
Proof.
  intros H.
  destruct (H (mkArgs true 8 false 0 false false 16 16 4 3 true)
              eq_refl eq_refl) as [Hlt _].
  vm_compute in Hlt. discriminate.
Qed.

(** C9 (amended): with the tensor network disabled, the histogram
    enabled and a positive number of tensor neurons, the width fused by
    [forward] is [bins] (plus [4 * hidden_size] with node-graph
    matching), it falls short of [feature_count] by exactly
    [2 * tensor_neurons], and [forward] never gets past the first
    fully-connected layer. *)
Theorem C9_fused_width_below_feature_count (args : Args) :
  tensor_network args = false -> histogram args = true ->
  (0 < tensor_neurons args)%Z ->
  (histogram_branch_width args < calculate_bottleneck_features args)%Z
  /\ (calculate_bottleneck_features args - histogram_branch_width args
      = 2 * tensor_neurons args)%Z
  /\ (forall w, fused_width args = Ok w -> w = histogram_branch_width args)
  /\ ((0 < bins args)%Z ->
      fused_width args = Ok (histogram_branch_width args)
      /\ forward_width args = Err RuntimeError)
  /\ (exists e, forward_width args = Err e).
Proof.
  intros Htn Hh Hpos.
  assert (Hgap : (calculate_bottleneck_features args
                  - histogram_branch_width args = 2 * tensor_neurons args)%Z).
  { rewrite feature_count_closed_form, Hh. unfold histogram_branch_width. lia. }
  assert (Hfw : forall w, fused_width args = Ok w ->
                          forward_width args = Err RuntimeError).
  { intros w Hw. unfold forward_width, fully_connected_first. rewrite Hw.
    apply fused_width_histogram_branch in Hw; auto.
    replace (w =? calculate_bottleneck_features args)%Z with false; auto.
    symmetry. apply Z.eqb_neq. lia. }
  repeat split.
  - lia.
  - exact Hgap.
  - intros w. now apply fused_width_histogram_branch.
  - unfold fused_width, hist_width, histogram_branch_width, node_graph_score_width.
    rewrite Htn, Hh. apply Z.ltb_lt in H. rewrite H.
    destruct (node_graph_matching args); f_equal; lia.
  - destruct (fused_width args) as [w |e] eqn:E.
    + now apply (Hfw w).
    + exfalso. revert E.
      unfold fused_width, hist_width. rewrite Htn, Hh.
      apply Z.ltb_lt in H. rewrite H.
      destruct (node_graph_matching args); discriminate.
  - destruct (fused_width args) as [w |e] eqn:E.
    + exists RuntimeError. now apply (Hfw w).
    + exists e. unfold forward_width. now rewrite E.
Qed.

Lemma C9_fused_width_below_feature_count_witness :
  (histogram_branch_width histogram_only_args
   < calculate_bottleneck_features histogram_only_args)%Z.
Proof.
  apply (C9_fused_width_below_feature_count histogram_only_args);
    [reflexivity | reflexivity | vm_compute; reflexivity].
Defined.

(** ** The histogram feature *)

Section HistogramFacts.

Lemma fold_left_Qplus_acc (l : list Q) (a : Q) :
  fold_left Qplus l a == a + sumQ l.
Proof.
  unfold sumQ. revert a.
  induction l as [| x l IH]; intros a; simpl.
  - ring.
  - rewrite IH, (IH (0 + x)). ring.
Qed.

Lemma sumQ_cons (x : Q) (l : list Q) : sumQ (x :: l) == x + sumQ l.
Proof.
  unfold sumQ at 1. simpl. rewrite fold_left_Qplus_acc. ring.
Qed.

Lemma sumQ_counts {A} (f : A -> nat) (l : list A) :
  sumQ (map (fun b => inject_Z (Z.of_nat (f b))) l)
  == inject_Z (Z.of_nat (list_sum (map f l))).
Proof.
  induction l as [| x l IH]; simpl.
  - reflexivity.
  - rewrite sumQ_cons, IH, Nat2Z.inj_add, inject_Z_plus. reflexivity.
Qed.

Lemma sumQ_scaled (s : Q) (l : list Q) :
  sumQ (map (fun c => c / s) l) == sumQ l / s.
Proof.
  induction l as [| x l IH]; simpl.
  - unfold sumQ; simpl. unfold Qdiv. ring.
  - rewrite !sumQ_cons, IH. unfold Qdiv. ring.
Qed.

Lemma list_min_le (l : list Q) (x0 : Q) :
  list_min x0 l <= x0 /\ forall y, In y l -> list_min x0 l <= y.
Proof.
  unfold list_min. revert x0.
  induction l as [| a l IH]; intros x0; simpl.
  - split; [apply Qle_refl | intros y []].
  - destruct (IH (Qmin x0 a)) as [H0 Hin]. split.
    + eapply Qle_trans; [exact H0 | apply Q.le_min_l].
    + intros y [<- | Hy].
      * eapply Qle_trans; [exact H0 | apply Q.le_min_r].
      * now apply Hin.
Qed.

Lemma list_max_ge (l : list Q) (x0 : Q) :
  x0 <= list_max x0 l /\ forall y, In y l -> y <= list_max x0 l.
Proof.
  unfold list_max. revert x0.
  induction l as [| a l IH]; intros x0; simpl.
  - split; [apply Qle_refl | intros y []].
  - destruct (IH (Qmax x0 a)) as [H0 Hin]. split.
    + eapply Qle_trans; [apply Q.le_max_l | exact H0].
    + intros y [<- | Hy].
      * eapply Qle_trans; [apply Q.le_max_r | exact H0].
      * now apply Hin.
Qed.

(** The edges are a proper interval that contains all the data. *)
Lemma histc_edges_spec (l : list Q) (lo hi : Q) :
  histc_edges l = (lo, hi) ->
  lo < hi /\ forall x, In x l -> lo <= x <= hi.
Proof.
  unfold histc_edges.
  set (e := match l with
            | [] => (0, 0)
            | x :: l' => (list_min x l', list_max x l')
            end).
  assert (He : fst e <= snd e /\ forall x, In x l -> fst e <= x <= snd e).
  { subst e. destruct l as [| x l']; simpl.
    - split; [apply Qle_refl | intros x []].
    - destruct (list_min_le l' x) as [Hm0 Hm], (list_max_ge l' x) as [HM0 HM].
      split; [eapply Qle_trans; eauto |].
      intros y [<- | Hy]; split; auto. }
  destruct e as [a b]; simpl in He. destruct He as [Hab Hin].
  destruct (Qeq_bool a b) eqn:E; intros [= <- <-].
  - apply Qeq_bool_iff in E. split.
    + rewrite E. apply Qlt_minus_iff. ring_simplify. reflexivity.
    + intros x Hx. destruct (Hin x Hx) as [H1 H2]. split.
      * apply Qle_trans with a; auto. apply Qle_minus_iff. ring_simplify. discriminate.
      * apply Qle_trans with b; auto. apply Qle_minus_iff. ring_simplify. discriminate.
  - split; auto.
    apply Qeq_bool_neq in E.
    destruct (Qlt_le_dec a b) as [Hlt | Hle]; auto.
    exfalso. apply E. now apply Qle_antisym.
Qed.

Lemma bin_index_range (lo hi x : Q) (nbins : Z) :
  lo < hi -> lo <= x <= hi -> (0 < nbins)%Z ->
  (0 <= bin_index lo hi nbins x < nbins)%Z.
Proof.
  intros Hlh [Hlx Hxh] Hn. unfold bin_index.
  set (t := (x - lo) * inject_Z nbins / (hi - lo)).
  assert (Hd : 0 < hi - lo).
  { apply (proj1 (Qlt_minus_iff lo hi)) in Hlh.
    setoid_replace (hi - lo) with (hi + - lo) by ring. exact Hlh. }
  assert (Hnq : 0 <= inject_Z nbins).
  { change 0 with (inject_Z 0). rewrite <- Zle_Qle. lia. }
  assert (Hx0 : 0 <= x - lo).
  { apply (proj1 (Qle_minus_iff lo x)) in Hlx.
    setoid_replace (x - lo) with (x + - lo) by ring. exact Hlx. }
  assert (Ht0 : 0 <= t).
  { subst t. apply Qle_shift_div_l; auto. rewrite Qmult_0_l.
    apply Qmult_le_0_compat; auto. }
  assert (Ht1 : t <= inject_Z nbins).
  { subst t. apply Qle_shift_div_r; auto.
    rewrite (Qmult_comm (inject_Z nbins)).
    apply Qmult_le_compat_r; auto.
    apply Qplus_le_l with (z := lo). ring_simplify. exact Hxh. }
  assert (F0 : (0 <= Qfloor t)%Z).
  { change 0%Z with (Qfloor (inject_Z 0)) at 1. rewrite Qfloor_Z at 1.
    rewrite <- (Qfloor_Z 0). now apply Qfloor_resp_le. }
  assert (F1 : (Qfloor t <= nbins)%Z).
  { rewrite <- (Qfloor_Z nbins). now apply Qfloor_resp_le. }
  destruct (Qfloor t =? nbins)%Z eqn:E.
  - apply Z.eqb_eq in E. lia.
  - apply Z.eqb_neq in E. lia.
Qed.

Lemma in_range_true (lo hi x : Q) : lo <= x <= hi -> in_range lo hi x = true.
Proof.
  intros [H1 H2]. unfold in_range.
  destruct (Qlt_le_dec x lo) as [H | _].
  - exfalso. exact (Qlt_not_le _ _ H H1).
  - destruct (Qlt_le_dec hi x) as [H | _]; auto.
    exfalso. exact (Qlt_not_le _ _ H H2).
Qed.

Lemma indicator_sum (z : Z) (s n : nat) :
  list_sum (map (fun b => if (z =? Z.of_nat b)%Z then 1 else 0)%nat (seq s n))
  = if ((Z.of_nat s <=? z) && (z <? Z.of_nat (s + n)))%Z then 1%nat else 0%nat.
Proof.
  revert s. induction n as [| n IH]; intros s; simpl.
  - destruct (Z.leb_spec (Z.of_nat s) z), (Z.ltb_spec z (Z.of_nat (s + 0)));
      simpl; auto; lia.
  - rewrite IH.
    destruct (Z.eqb_spec z (Z.of_nat s)),
             (Z.leb_spec (Z.of_nat (S s)) z),
             (Z.ltb_spec z (Z.of_nat (S s + n))),
             (Z.leb_spec (Z.of_nat s) z),
             (Z.ltb_spec z (Z.of_nat (s + S n))); simpl; auto; lia.
Qed.

Lemma list_sum_map_add {A} (f g : A -> nat) (l : list A) :
  list_sum (map (fun a => f a + g a)%nat l)
  = (list_sum (map f l) + list_sum (map g l))%nat.
Proof. induction l as [| a l IH]; simpl; lia. Qed.

(** Every element is counted in exactly one bin. *)
Lemma bin_count_total (lo hi : Q) (nbins : Z) (l : list Q) :
  lo < hi -> (0 < nbins)%Z -> (forall x, In x l -> lo <= x <= hi) ->
  list_sum (map (bin_count lo hi nbins l) (seq 0 (Z.to_nat nbins))) = length l.
Proof.
  intros Hlh Hn. unfold bin_count.
  induction l as [| x l IH]; intros Hin.
  - simpl. induction (seq 0 (Z.to_nat nbins)); simpl; auto.
  - assert (Hx : lo <= x <= hi) by (apply Hin; now left).
    specialize (IH (fun y Hy => Hin y (or_intror Hy))).
    pose proof (bin_index_range Hlh Hx Hn) as Hb.
    rewrite (map_ext _ (fun b =>
               (if (bin_index lo hi nbins x =? Z.of_nat b)%Z then 1 else 0)
               + length (filter (fun x0 => in_range lo hi x0
                     && (bin_index lo hi nbins x0 =? Z.of_nat b)%Z) l))%nat).
    + rewrite list_sum_map_add, IH, indicator_sum. simpl.
      destruct (Z.leb_spec 0 (bin_index lo hi nbins x)),
               (Z.ltb_spec (bin_index lo hi nbins x) (Z.of_nat (Z.to_nat nbins)));
        simpl; auto; lia.
    + intros b. simpl. rewrite (in_range_true Hx). simpl.
      destruct (bin_index lo hi nbins x =? Z.of_nat b)%Z; reflexivity.
Qed.

Lemma view_column_length (M : Matrix) :
  length (view_column M) = (nrows M * ncols M)%nat.
Proof.
  unfold view_column.
  transitivity (length (seq 0 (nrows M)) * ncols M)%nat;
    [| now rewrite length_seq].
  induction (seq 0 (nrows M)) as [| i l IH]; simpl; auto.
  now rewrite length_app, length_map, length_seq, IH.
Qed.

Lemma histc_ok (l : list Q) (nbins : Z) :
  (0 < nbins)%Z ->
  exists hist, histc l nbins = Ok hist
               /\ length hist = Z.to_nat nbins
               /\ sumQ hist == inject_Z (Z.of_nat (length l))
               /\ (l = [] -> hist = map (fun _ => inject_Z 0) (seq 0 (Z.to_nat nbins))).
Proof.
  intros Hn. unfold histc.
  destruct (Z.leb_spec nbins 0) as [Hle | _]; [lia |].
  destruct (histc_edges l) as [lo hi] eqn:E.
  destruct (histc_edges_spec l E) as [Hlh Hin].
  eexists. split; [reflexivity |]. repeat split.
  - now rewrite length_map, length_seq.
  - rewrite sumQ_counts, bin_count_total; auto. reflexivity.
  - intros ->. reflexivity.
Qed.

End HistogramFacts.

Lemma map_const_repeat {A B} (b : B) (l : list A) :
  map (fun _ => b) l = repeat b (length l).
Proof. induction l; simpl; congruence. Qed.

Lemma sumQ_zeros {A} (l : list A) : sumQ (map (fun _ => inject_Z 0) l) == 0.
Proof.
  induction l as [| b bs IH]; simpl.
  - reflexivity.
  - rewrite sumQ_cons, IH. reflexivity.
Qed.

(** C5, as stated, fails on a graph without nodes: the count vector is
    divided by its zero sum, so every entry of the result is [nan], not
    [0]. *)
Lemma C5_counterexample_graph_without_nodes :
  nrows no_nodes = 0%nat
  /\ calculate_histogram histogram_only_args no_nodes three_nodes_t
     = Ok (repeat NaN 8)
  /\ calculate_histogram histogram_only_args no_nodes three_nodes_t
     <> Ok (zero_histogram histogram_only_args).
Proof.
  split; [reflexivity |]. split; [vm_compute; reflexivity |].
  vm_compute. discriminate.
Qed.

(** C5 (amended): for embedding matrices of matching width and a
    positive number of bins, the histogram has [bins] finite entries
    that sum to 1 when both graphs have a node; when either graph has
    no node every entry is [0/0 = nan]. *)
Theorem C5_histogram_normalised (args : Args) (A B : Matrix) :
  ncols A = nrows B -> (0 < bins args)%Z ->
  ((0 < nrows A)%nat -> (0 < ncols B)%nat ->
   exists h : list Q,
     calculate_histogram args A B = Ok (map Fin h)
     /\ length h = Z.to_nat (bins args)
     /\ sumQ h == 1)
  /\ (nrows A = 0%nat \/ ncols B = 0%nat ->
      calculate_histogram args A B = Ok (repeat NaN (Z.to_nat (bins args)))).
Proof.
  intros Hdim Hbins. unfold calculate_histogram, mm.
  rewrite (proj2 (Nat.eqb_eq _ _) Hdim).
  set (S := {| nrows := nrows A; ncols := ncols B;
               entry := fun i j => dot (ncols A) (fun k => entry A i k)
                                       (fun k => entry B k j) |}).
  destruct (histc_ok (view_column S) Hbins) as (hist & -> & Hlen & Hsum & Hnil).
  rewrite view_column_length in Hsum. simpl in Hsum.
  split.
  - intros HA HB.
    assert (Hpos : ~ sumQ hist == 0).
    { rewrite Hsum. change 0 with (inject_Z 0). rewrite inject_Z_injective. nia. }
    exists (map (fun c => c / sumQ hist) hist). repeat split.
    + rewrite map_map. f_equal. apply map_ext. intros c. unfold fdiv.
      destruct (Qeq_bool (sumQ hist) 0) eqn:E; auto.
      apply Qeq_bool_iff in E. contradiction.
    + now rewrite length_map.
    + rewrite sumQ_scaled. now apply Qmult_inv_r.
  - intros Hz.
    assert (Hv : view_column S = []).
    { apply length_zero_iff_nil. rewrite view_column_length. simpl.
      destruct Hz as [-> | ->]; lia. }
    rewrite (Hnil Hv), map_map.
    assert (E : Qeq_bool (sumQ (map (fun _ : nat => inject_Z 0)
                                    (seq 0 (Z.to_nat (bins args))))) 0 = true).
    { apply Qeq_bool_iff, sumQ_zeros. }
    unfold fdiv. rewrite E. simpl.
    rewrite map_const_repeat. now rewrite length_seq.
Qed.

Lemma C5_histogram_normalised_witness :
  exists h : list Q,
    calculate_histogram histogram_only_args two_nodes three_nodes_t
    = Ok (map Fin h)
    /\ length h = 8%nat /\ sumQ h == 1.
Proof.
  apply (C5_histogram_normalised histogram_only_args two_nodes three_nodes_t);
    [reflexivity | reflexivity | simpl; lia | simpl; lia].
Defined.

(** ** The trainer *)

Import Trainer.


Section TrainerFacts.
Context {C : Collaborators}.
Variable args : Args.
Local Open Scope trainer_scope.

(** *** Batching *)

Lemma py_range_step_below (n : nat) (step : Z) (starts : list nat) :
  py_range_step n step = Ok starts ->
  forall i, In i starts -> (i < n)%nat.
Proof.
  unfold py_range_step.
  destruct (Z.eqb_spec step 0) as [| Hz]; [discriminate |].
  destruct (Z.ltb_spec step 0) as [| Hp].
  - intros [= <-] i [].
  - intros [= <-] i Hi.
    apply in_map_iff in Hi. destruct Hi as (k & <- & Hk).
    apply in_seq in Hk.
    set (s := Z.to_nat step) in *.
    assert (Hs : (0 < s)%nat) by (subst s; lia).
    pose proof (Nat.div_mod_eq (n + s - 1) s) as Hdm.
    pose proof (Nat.mod_upper_bound (n + s - 1) s ltac:(lia)) as Hmod.
    nia.
Qed.

Lemma slice_nonempty {A} (l : list A) (i j : nat) :
  (i < length l)%nat -> (i < j)%nat -> slice l i j <> [].
Proof.
  intros Hi Hj. unfold slice. intros E.
  apply (f_equal (@length A)) in E.
  rewrite length_firstn, length_skipn in E. simpl in E. lia.
Qed.

(** [create_batches] raises only for a zero batch size, and never forms
    an empty batch. *)
Lemma create_batches_ok :
  batch_size args <> 0%Z ->
  exists batches, create_batches args = Ok batches
                  /\ Forall (fun batch => batch <> []) batches.
Proof.
  intros Hbs. unfold create_batches.
  destruct (py_range_step (length training_graph_index_pairs) (batch_size args))
    as [starts | e] eqn:E.
  - eexists. split; [reflexivity |].
    apply Forall_forall. intros b Hb.
    apply in_map_iff in Hb. destruct Hb as (i & <- & Hi).
    pose proof (py_range_step_below _ _ E i Hi) as Hlt.
    apply slice_nonempty; auto.
    unfold py_range_step in E.
    destruct (Z.eqb_spec (batch_size args) 0); [discriminate |].
    destruct (Z.ltb_spec (batch_size args) 0); [injection E as <-; destruct Hi |].
    lia.
  - exfalso. unfold py_range_step in E.
    destruct (Z.eqb_spec (batch_size args) 0); [contradiction |].
    destruct (batch_size args <? 0)%Z; discriminate.
Qed.

(** *** One batch *)

Lemma process_batch_spec (st : Trainer) (o : OptState) (batch : list Pair) :
  optimizer st = Some o -> batch <> [] ->
  process_batch batch st
  = Ret (sumQ (pair_losses st batch)) (after_batch st o batch).
Proof.
  intros Ho Hb. unfold process_batch, bind, get. simpl. rewrite Ho. simpl.
  destruct batch as [| p batch]; [contradiction |]. simpl.
  unfold after_batch. simpl.
  destruct (adam_step o (params st) _) as [o' p'] eqn:E. simpl.
  rewrite <- !app_assoc. reflexivity.
Qed.

Lemma process_batch_empty (st : Trainer) :
  exists st', process_batch [] st = Raise AttributeError st'.
Proof.
  unfold process_batch, bind, get. simpl.
  destruct (optimizer st); simpl; eexists; reflexivity.
Qed.

Lemma count_event_app (f : event -> bool) (t1 t2 : list event) :
  count_event f (t1 ++ t2) = (count_event f t1 + count_event f t2)%nat.
Proof. unfold count_event. now rewrite filter_app, length_app. Qed.

(** *** Validation *)

Lemma validate_spec (index : nat) (st : Trainer) :
  validate index st = Ret tt (after_validate index st).
Proof.
  unfold validate, after_validate, bind, get, modify, set_training. simpl.
  destruct (fl_ltb (validation_error (params st)) (min_error st)); reflexivity.
Qed.

Lemma validation_error_shape (p : Params) :
  validation_error p = NaN \/ exists q, validation_error p = Fin q.
Proof.
  unfold validation_error, np_mean.
  destruct (map _ validation_graph_index_pairs); eauto.
Qed.

(** *** The batch phase of an epoch *)

Lemma batch_frame_trans (a b c : Trainer) :
  batch_frame a b -> batch_frame b c -> batch_frame a c.
Proof.
  unfold batch_frame. intros (?&?&?&?&?&?) (?&?&?&?&?&?).
  repeat split; try congruence.
Qed.

Lemma batch_loop_ok (batches : list (list Pair)) :
  Forall (fun batch => batch <> []) batches ->
  forall (m : nat) (st : Trainer),
    optimizer st <> None ->
    exists n st', batch_loop batches m st = Ret n st' /\ batch_frame st st'.
Proof.
  induction 1 as [| batch rest Hb _ IH]; intros m st Ho; simpl.
  - exists m, st. split; [reflexivity |]. repeat split; auto.
  - destruct (optimizer st) as [o |] eqn:Eo; [| contradiction].
    unfold bind at 1. rewrite (process_batch_spec _ Eo Hb).
    unfold bind, get, set_loss_sum, modify. simpl.
    destruct (m + length batch)%nat as [| k] eqn:Ek.
    { destruct batch; [contradiction | simpl in Ek; lia]. }
    match goal with
    | |- exists n st', batch_loop _ _ ?s = _ /\ _ =>
        destruct (IH (S k) s) as (n & st' & Hrun & Hfr)
    end.
    { simpl. discriminate. }
    exists n, st'. split; [exact Hrun |].
    eapply batch_frame_trans; [| exact Hfr].
    unfold batch_frame. simpl. repeat split; auto.
    + rewrite count_event_app. unfold count_event. simpl. lia.
    + discriminate.
Qed.

(** An epoch returns whenever the batch size is not zero; with
    validation enabled it ends in [validate]. *)
Lemma run_epoch_spec (epoch_index : nat) (st : Trainer) :
  batch_size args <> 0%Z -> optimizer st <> None ->
  exists st_mid,
    batch_frame st st_mid
    /\ run_epoch args epoch_index st
       = Ret tt (if validate_enabled args
                 then after_validate epoch_index st_mid else st_mid).
Proof.
  intros Hbs Ho. unfold run_epoch.
  destruct (create_batches_ok Hbs) as (batches & -> & Hne).
  unfold bind at 1. unfold set_training, modify.
  unfold bind at 1. simpl. unfold ret at 1.
  unfold bind at 1. unfold set_loss_sum, modify.
  unfold bind at 1.
  match goal with
  | |- context [batch_loop _ _ ?s] =>
      destruct (batch_loop_ok Hne 0 s) as (n & st' & -> & Hfr)
  end.
  { simpl. exact Ho. }
  exists st'. split.
  - unfold batch_frame in *. simpl in Hfr. exact Hfr.
  - destruct (validate_enabled args); [apply validate_spec | reflexivity].
Qed.

(** *** Comparisons on validation errors *)

Lemma fl_ltb_Fin (x y : Q) : fl_ltb (Fin x) (Fin y) = true <-> x < y.
Proof.
  simpl. destruct (Qlt_le_dec x y) as [H | H]; split; auto; try discriminate.
  intros H'. exfalso. exact (Qlt_not_le _ _ H' H).
Qed.

Lemma fl_leb_Fin (x y : Q) : fl_leb (Fin x) (Fin y) = true <-> x <= y.
Proof.
  simpl. destruct (Qlt_le_dec y x) as [H | H]; split; auto; try discriminate.
  intros H'. exfalso. exact (Qlt_not_le _ _ H H').
Qed.

(** A value that is not below [b] is not below-or-equal any [m < b]. *)
Lemma fl_not_below_lower (e : pyfloat) (m b : Q) :
  fl_ltb e (Fin b) = false -> m < b ->
  fl_ltb e (Fin m) = false /\ fl_leb e (Fin m) = false.
Proof.
  destruct e as [x | [|] |]; simpl; auto; try discriminate.
  destruct (Qlt_le_dec x b) as [| Hbx]; [discriminate |]. intros _ Hmb.
  assert (Hmx : m < x) by (eapply Qlt_le_trans; eauto).
  destruct (Qlt_le_dec x m) as [H | _], (Qlt_le_dec m x) as [_ | H']; auto.
  - exfalso. exact (Qlt_irrefl _ (Qlt_trans _ _ _ H Hmx)).
  - exfalso. exact (Qlt_irrefl _ (Qlt_trans _ _ _ H Hmx)).
  - exfalso. exact (Qlt_not_le _ _ Hmx H').
Qed.

Lemma first_argmin_unique (es : list pyfloat) (k k' : nat) (m m' : Q) :
  first_argmin es k m -> first_argmin es k' m' -> k = k'.
Proof.
  intros (Hk & Hmin & Hfirst) (Hk' & Hmin' & Hfirst').
  pose proof (Hmin _ _ Hk') as H1. pose proof (Hmin' _ _ Hk) as H2.
  simpl in H1, H2.
  destruct (Qlt_le_dec m' m) as [| Hle1]; [discriminate |].
  destruct (Qlt_le_dec m m') as [| Hle2]; [discriminate |].
  destruct (Nat.lt_trichotomy k k') as [Hlt | [Heq | Hgt]]; auto; exfalso.
  - pose proof (Hfirst' _ _ Hlt Hk) as H. simpl in H.
    destruct (Qlt_le_dec m' m) as [H' | _]; [| discriminate].
    exact (Qlt_not_le _ _ H' Hle1).
  - pose proof (Hfirst _ _ Hgt Hk') as H. simpl in H.
    destruct (Qlt_le_dec m m') as [H' | _]; [| discriminate].
    exact (Qlt_not_le _ _ H' Hle2).
Qed.

(** *** The epoch loop *)

Lemma for_each_app {A} (l1 l2 : list A) (body : A -> M unit) (st : Trainer) :
  for_each (l1 ++ l2) body st
  = (for_each l1 body ;; for_each l2 body) st.
Proof.
  revert st. induction l1 as [| x l1 IH]; intros st; simpl.
  - reflexivity.
  - unfold bind. destruct (body x st) as [[] st' | e st']; [apply IH | reflexivity].
Qed.

Lemma train_epochs_0 (st : Trainer) :
  train_epochs args 0 st = Ret tt (init_state args st).
Proof. reflexivity. Qed.

Lemma train_epochs_S (n : nat) (st : Trainer) :
  train_epochs args (S n) st
  = match train_epochs args n st with
    | Ret _ st' => run_epoch args n st'
    | Raise e st' => Raise e st'
    end.
Proof.
  unfold train_epochs. rewrite seq_S. simpl.
  unfold bind, train_init, modify.
  rewrite for_each_app. unfold bind.
  destruct (for_each (seq 0 n) (run_epoch args) _) as [[] st' | e st']; auto.
  simpl. unfold bind, ret.
  destruct (run_epoch args n st') as [[] st'' | e st'']; reflexivity.
Qed.

(** [train] is the epoch loop followed by the reload. *)
Lemma train_unfold (st : Trainer) :
  train args st
  = match train_epochs args (Z.to_nat (epochs args)) st with
    | Ret _ st' => if validate_enabled args then load_best st' else Ret tt st'
    | Raise e st' => Raise e st'
    end.
Proof.
  unfold train, train_epochs, epoch_indices, bind.
  destruct (train_init args st) as [[] st1 | e st1]; auto.
  destruct (for_each _ _ st1) as [[] st2 | e st2]; auto.
  destruct (validate_enabled args); reflexivity.
Qed.

Lemma nth_error_snoc {A} (l : list A) (x y : A) (k : nat) :
  nth_error (l ++ [x]) k = Some y ->
  ((k < length l)%nat /\ nth_error l k = Some y) \/ (k = length l /\ y = x).
Proof.
  intros H. destruct (Nat.lt_ge_cases k (length l)) as [Hlt | Hge].
  - left. rewrite nth_error_app1 in H by exact Hlt. auto.
  - right. rewrite nth_error_app2 in H by exact Hge.
    destruct (k - length l)%nat as [| d] eqn:E; simpl in H.
    + injection H as <-. split; [lia | reflexivity].
    + destruct d; discriminate.
Qed.

Lemma nth_error_lt {A} (l : list A) (k : nat) (x : A) :
  nth_error l k = Some x -> (k < length l)%nat.
Proof. intros H. apply nth_error_Some. congruence. Qed.

(** A bound [b <= 100] below which no recorded error lies. *)
Lemma best_tracked_bound (st0 st : Trainer) :
  best_tracked args st0 st ->
  exists b, min_error st = Fin b /\ b <= 100
            /\ forall j x, nth_error (epoch_loss_list st) j = Some x ->
                           fl_ltb x (Fin b) = false.
Proof.
  intros [(Hm & _ & _ & _ & Hall) | (k & m & st_k & Harg & Hlt & Hm & _)].
  - exists 100. repeat split; auto; [discriminate |].
    intros j x Hx. apply Hall. eapply nth_error_In; eauto.
  - exists m. repeat split; auto; [now apply Qlt_le_weak |].
    destruct Harg as (_ & Hmin & _). exact Hmin.
Qed.

(** The state after any number of epochs exists and satisfies both
    invariants. *)
Lemma epochs_invariant :
  validate_enabled args = true -> batch_size args <> 0%Z ->
  forall (n : nat) (st0 : Trainer),
    exists st, train_epochs args n st0 = Ret tt st
               /\ optimizer st <> None
               /\ history_recorded args st0 st n
               /\ best_tracked args st0 st.
Proof.
  intros Hv Hbs n st0. induction n as [| n IHn].
  - exists (init_state args st0). rewrite train_epochs_0.
    split; [reflexivity |]. split; [simpl; discriminate |]. split.
    + split; [reflexivity |]. intros [| k] e H; discriminate.
    + left. simpl. repeat split; auto. intros e [].
  - destruct IHn as (st & Hrun & Ho & (Hlen & Hhist) & Hbest).
    destruct (@run_epoch_spec n st Hbs Ho) as (mid & Hfr & Hep).
    rewrite Hv in Hep.
    assert (HrunS : train_epochs args (S n) st0 = Ret tt (after_validate n mid)).
    { rewrite train_epochs_S, Hrun. exact Hep. }
    exists (after_validate n mid). split; [exact HrunS |].
    destruct Hfr as (Fmin & Fbest & Fell & Fdisk & Fsave & Fopt).
    remember (validation_error (params mid)) as e eqn:He.
    assert (Hp : params (after_validate n mid) = params mid).
    { unfold after_validate. destruct (fl_ltb _ _); reflexivity. }
    assert (Hell : epoch_loss_list (after_validate n mid)
                   = epoch_loss_list st ++ [e]).
    { unfold after_validate. rewrite <- He, Fell.
      destruct (fl_ltb _ _); reflexivity. }
    split. { unfold after_validate. destruct (fl_ltb _ _); exact Fopt. }
    split.
    { split; [rewrite Hell, length_app; simpl; lia |].
      intros k x Hk. rewrite Hell in Hk.
      apply nth_error_snoc in Hk. destruct Hk as [[_ Hk] | [-> ->]].
      - now apply Hhist.
      - rewrite Hlen. exists (after_validate n mid). split; auto.
        rewrite Hp. exact He. }
    destruct (best_tracked_bound Hbest) as (b & Hb & Hb100 & Hbelow).
    unfold best_tracked. rewrite Hell.
    destruct (fl_ltb e (min_error mid)) eqn:Elt.
    + (* a new best: saved at epoch [n] *)
      right.
      destruct (validation_error_shape (params mid)) as [Hnan | (m & Hm)];
        rewrite <- He in *; [rewrite Hnan in Elt; discriminate |].
      rewrite Fmin, Hb, Hm in Elt. apply fl_ltb_Fin in Elt.
      exists n, m, (after_validate n mid).
      assert (Hfields : min_error (after_validate n mid) = Fin m
                        /\ best_epoch_index (after_validate n mid) = n
                        /\ disk (after_validate n mid) = Some (params mid)).
      { unfold after_validate. rewrite <- He, Fmin, Hb, Hm.
        rewrite (proj2 (fl_ltb_Fin m b) Elt). auto. }
      destruct Hfields as (F1 & F2 & F3).
      repeat split; auto.
      * rewrite Hm, nth_error_app2 by lia. rewrite Hlen, Nat.sub_diag. reflexivity.
      * intros j x Hx. apply nth_error_snoc in Hx.
        destruct Hx as [[_ Hx] | [_ ->]].
        -- exact (proj1 (fl_not_below_lower _ (Hbelow _ _ Hx) Elt)).
        -- rewrite Hm. simpl. destruct (Qlt_le_dec m m) as [H | _]; auto.
           exfalso. exact (Qlt_irrefl _ H).
      * intros j x Hj Hx. apply nth_error_snoc in Hx.
        destruct Hx as [[_ Hx] | [Hjn _]]; [| lia].
        exact (proj2 (fl_not_below_lower _ (Hbelow _ _ Hx) Elt)).
      * eapply Qlt_le_trans; eauto.
      * rewrite Hp. exact F3.
    + (* not a new best: only the history grows *)
      assert (Hfields : min_error (after_validate n mid) = min_error st
                        /\ best_epoch_index (after_validate n mid)
                           = best_epoch_index st
                        /\ disk (after_validate n mid) = disk st
                        /\ trace (after_validate n mid) = trace mid).
      { unfold after_validate. rewrite <- He, Elt. simpl. auto. }
      destruct Hfields as (F1 & F2 & F3 & F4).
      rewrite F1, F2, F3, F4, Fsave. rewrite Fmin, Hb in Elt.
      destruct Hbest as [(Hm & Hi & Hd & Hs & Hall)
                        | (k & m & st_k & Harg & Hlt & Hm & Hi & Hk & Hd)].
      * left. repeat split; auto.
        intros x Hx. apply in_app_or in Hx. destruct Hx as [Hx | [<- | []]]; auto.
        rewrite Hm in Hb. injection Hb as <-. exact Elt.
      * right. exists k, m, st_k.
        destruct Harg as (A1 & A2 & A3).
        rewrite Hm in Hb. injection Hb as <-.
        pose proof (nth_error_lt _ _ A1) as Hkl.
        split; [| auto]. split; [| split].
        -- rewrite nth_error_app1 by exact Hkl. exact A1.
        -- intros j x Hx. apply nth_error_snoc in Hx.
           destruct Hx as [[_ Hx] | [_ ->]]; eauto.
        -- intros j x Hj Hx. apply nth_error_snoc in Hx.
           destruct Hx as [[_ Hx] | [Hjn _]]; [eauto | lia].
Qed.

(** *** Claims about [process_batch] *)

(** C2: on a trainer whose optimizer exists, [process_batch] on a batch
    (a non-empty list of pairs, as [create_batches] forms them) returns
    the plain sum of the per-pair squared-error losses, zeroes the
    gradients once, backpropagates once and applies exactly one
    optimizer step, on the gradient accumulated from zero. *)
Theorem C2_process_batch_one_step_raw_sum
    (st : Trainer) (o : OptState) (batch : list Pair) :
  optimizer st = Some o -> batch <> [] ->
  exists st',
    process_batch batch st = Ret (sumQ (pair_losses st batch)) st'
    /\ trace st' = trace st ++ [EvZeroGrad; EvBackward; EvStep]
    /\ count_event is_zero_grad (trace st')
       = S (count_event is_zero_grad (trace st))
    /\ count_event is_step (trace st') = S (count_event is_step (trace st))
    /\ (let g := backward (training st) (params st)
                   (map (fun p => get_data p Training) batch) grad_zero in
        optimizer st' = Some (fst (adam_step o (params st) g))
        /\ params st' = snd (adam_step o (params st) g)).
Proof.
  intros Ho Hb. exists (after_batch st o batch).
  split; [now apply process_batch_spec |].
  unfold after_batch. simpl. repeat split.
  - rewrite count_event_app. unfold count_event at 2. simpl. lia.
  - rewrite count_event_app. unfold count_event at 2. simpl. lia.
Qed.

End TrainerFacts.

Lemma C2_process_batch_one_step_raw_sum_witness :
  exists st', @process_batch (toy dip_loss) [0; 1; 2; 3]%nat
                (toy_trainer_ready dip_loss 3)
              = Ret (sumQ [9; 4; 1; 0]) st'
              /\ trace st' = [EvZeroGrad; EvBackward; EvStep].
Proof.
  destruct (@C2_process_batch_one_step_raw_sum (toy dip_loss)
              (toy_trainer_ready dip_loss 3) tt [0; 1; 2; 3]%nat)
    as (st' & Hrun & Htr & _);
    [reflexivity | discriminate |].
  exists st'. split; [exact Hrun | exact Htr].
Defined.

Section TrainingRun.
Context {C : Collaborators}.
Variable args : Args.

(** *** The reload at the end of [train] *)

Lemma load_best_spec (st : Trainer) :
  load_best st
  = match disk st with
    | Some p => Ret tt (mkTrainer p (grads st) (training st) (optimizer st)
                          (min_error st) (best_epoch_index st)
                          (epoch_loss_list st) (loss_sum st) (disk st)
                          (trace st ++ [EvLoad]))
    | None => Raise FileNotFoundError
                (mkTrainer (params st) (grads st) (training st) (optimizer st)
                   (min_error st) (best_epoch_index st)
                   (epoch_loss_list st) (loss_sum st) (disk st)
                   (trace st ++ [EvLoad]))
    end.
Proof.
  unfold load_best, bind, log, modify, get. simpl.
  destruct (disk st); reflexivity.
Qed.

(** One epoch appends one entry, the validation error of the
    parameters the epoch ends with. *)
Lemma run_epoch_history (epoch_index : nat) (st : Trainer) :
  validate_enabled args = true -> batch_size args <> 0%Z ->
  optimizer st <> None ->
  exists st', run_epoch args epoch_index st = Ret tt st'
              /\ epoch_loss_list st'
                 = epoch_loss_list st ++ [validation_error (params st')]
              /\ optimizer st' <> None.
Proof.
  intros Hv Hbs Ho.
  destruct (@run_epoch_spec C args epoch_index st Hbs Ho)
    as (mid & (_ & _ & Fell & _ & _ & Fopt) & Hep).
  rewrite Hv in Hep. exists (after_validate epoch_index mid).
  split; [exact Hep |].
  unfold after_validate. rewrite <- Fell.
  destruct (fl_ltb _ _); simpl; auto.
Qed.

(** *** The test loop *)

Lemma succ_div (i b : nat) :
  (0 < b)%nat ->
  (S i / b = i / b + (if ((i + 1) mod b =? 0)%nat then 1 else 0))%nat.
Proof.
  intros Hb.
  pose proof (Nat.div_mod_eq i b) as Hi.
  pose proof (Nat.mod_upper_bound i b ltac:(lia)) as Hr.
  replace (i + 1)%nat with (S i) by lia.
  destruct (Nat.eq_dec (S (i mod b)) b) as [E | E].
  - assert (Hq : (S i / b = i / b + 1)%nat).
    { symmetry. apply (Nat.div_unique (S i) b _ 0); lia. }
    assert (Hm : (S i mod b = 0)%nat).
    { symmetry. apply (Nat.mod_unique (S i) b (i / b + 1) 0); lia. }
    rewrite Hq, Hm. reflexivity.
  - assert (Hq : (S i / b = i / b)%nat).
    { symmetry. apply (Nat.div_unique (S i) b _ (S (i mod b))); lia. }
    assert (Hm : (S i mod b = S (i mod b))%nat).
    { symmetry. apply (Nat.mod_unique (S i) b (i / b) (S (i mod b))); lia. }
    rewrite Hq, Hm. simpl. lia.
Qed.

Lemma test_loop_ok (p : Params) (pairs : list Pair) :
  (0 < test_graphs_len)%nat ->
  forall (index : nat) (temp_gt temp_pre : list Q) (r : TestReport),
    exists r',
      test_loop p pairs index temp_gt temp_pre r = Ok r'
      /\ (length (prec_at_10_list r') + index / test_graphs_len
          = length (prec_at_10_list r)
            + (index + length pairs) / test_graphs_len)%nat
      /\ (length (prec_at_20_list r') + index / test_graphs_len
          = length (prec_at_20_list r)
            + (index + length pairs) / test_graphs_len)%nat.
Proof.
  intros Hb. induction pairs as [| pair rest IH]; intros index tg tp r.
  - exists r. simpl. rewrite Nat.add_0_r. auto.
  - simpl. pose proof (succ_div index Hb) as Hs.
    destruct test_graphs_len as [| b] eqn:E; [lia |].
    replace (index + S (length rest))%nat with (S index + length rest)%nat by lia.
    destruct ((index + 1) mod S b =? 0)%nat.
    + match goal with
      | |- context [test_loop p rest (S index) ?g ?q ?s] =>
          destruct (IH (S index) g q s) as (r' & -> & H10 & H20)
      end.
      exists r'. split; [reflexivity |].
      cbn [prec_at_10_list prec_at_20_list] in H10, H20.
      rewrite length_app in H10, H20. cbn [length] in H10, H20. lia.
    + match goal with
      | |- context [test_loop p rest (S index) ?g ?q ?s] =>
          destruct (IH (S index) g q s) as (r' & -> & H10 & H20)
      end.
      exists r'. split; [reflexivity |].
      cbn [prec_at_10_list prec_at_20_list] in H10, H20. lia.
Qed.

(** *** Claims about the training run *)

(** The bookkeeping of [validate] over a run of [N] epochs. *)
Lemma best_checkpoint_tracked
    (N : nat) (st0 : Trainer) :
  validate_enabled args = true -> batch_size args <> 0%Z ->
  exists stN,
    train_epochs args N st0 = Ret tt stN
    /\ length (epoch_loss_list stN) = N
    /\ (forall k e, nth_error (epoch_loss_list stN) k = Some e ->
          exists st_k, train_epochs args (S k) st0 = Ret tt st_k
                       /\ e = validation_error (params st_k))
    /\ (forall k m, first_argmin (epoch_loss_list stN) k m -> m < 100 ->
          best_epoch_index stN = k
          /\ min_error stN = Fin m
          /\ exists st_k, train_epochs args (S k) st0 = Ret tt st_k
                          /\ disk stN = Some (params st_k)).
Proof.
  intros Hv Hbs.
  destruct (@epochs_invariant C args Hv Hbs N st0)
    as (stN & Hrun & _ & (Hlen & Hhist) & Hbest).
  exists stN. split; [exact Hrun |]. split; [exact Hlen |].
  split; [exact Hhist |]. intros k m Harg Hlt.
  destruct Hbest as [(_ & _ & _ & _ & Hall)
                    | (k' & m' & st_k & Harg' & _ & Hm & Hi & Hk' & Hd)].
  - exfalso. destruct Harg as (Hk & _).
    apply nth_error_In, Hall in Hk. apply fl_ltb_Fin in Hlt. congruence.
  - pose proof (first_argmin_unique Harg Harg') as <-.
    assert (m' = m) as ->.
    { destruct Harg as (Hk & _), Harg' as (Hk2 & _). congruence. }
    split; [exact Hi |]. split; [exact Hm |]. exists st_k. auto.
Qed.

(** C3 (amended): with validation enabled (and a non-zero batch size,
    so that the epochs run), after [N] epochs the history holds the [N]
    validation errors, and whenever their minimum is finite and below
    the initial sentinel 100, [best_epoch_index] is the first position
    of that minimum, [min_error] is the minimum and the file at the
    best-model path holds the parameters that epoch ended with. *)
Theorem C3_best_checkpoint_first_argmin_below_sentinel
    (N : nat) (st0 : Trainer) :
  validate_enabled args = true -> batch_size args <> 0%Z ->
  exists stN,
    train_epochs args N st0 = Ret tt stN
    /\ length (epoch_loss_list stN) = N
    /\ (forall k e, nth_error (epoch_loss_list stN) k = Some e ->
          exists st_k, train_epochs args (S k) st0 = Ret tt st_k
                       /\ e = validation_error (params st_k))
    /\ (forall k m, first_argmin (epoch_loss_list stN) k m -> m < 100 ->
          best_epoch_index stN = k
          /\ min_error stN = Fin m
          /\ exists st_k, train_epochs args (S k) st0 = Ret tt st_k
                          /\ disk stN = Some (params st_k)).
Proof. exact (best_checkpoint_tracked N st0). Qed.

(** C4 (amended): with validation enabled, whenever [train] returns the
    live parameters are exactly those stored in the file at the
    best-model path; [train] returns whenever that file exists after
    the last epoch, and when some epoch's validation error is below the
    sentinel 100 the parameters it ends with are those of the first
    epoch that reached the minimum, not those of the last epoch. *)
Theorem C4_train_ends_with_best_checkpoint (st0 : Trainer) :
  validate_enabled args = true -> batch_size args <> 0%Z ->
  (forall st', train args st0 = Ret tt st' -> disk st' = Some (params st'))
  /\ exists st1,
       train_epochs args (Z.to_nat (epochs args)) st0 = Ret tt st1
       /\ (forall p, disk st1 = Some p ->
             exists st', train args st0 = Ret tt st'
                         /\ params st' = p /\ disk st' = Some p)
       /\ (forall k m, first_argmin (epoch_loss_list st1) k m -> m < 100 ->
             exists st' st_k,
               train args st0 = Ret tt st'
               /\ train_epochs args (S k) st0 = Ret tt st_k
               /\ params st' = params st_k
               /\ disk st' = Some (params st_k)).
Proof.
  intros Hv Hbs.
  destruct (best_checkpoint_tracked (Z.to_nat (epochs args)) st0 Hv Hbs)
    as (st1 & Hrun & _ & _ & Hbest).
  assert (Hload : forall p, disk st1 = Some p ->
            exists st', train args st0 = Ret tt st'
                        /\ params st' = p /\ disk st' = Some p).
  { intros p Hp. rewrite train_unfold, Hrun, Hv, load_best_spec, Hp.
    eexists. split; [reflexivity |]. simpl. auto. }
  split.
  - intros st'. rewrite train_unfold, Hrun, Hv, load_best_spec.
    destruct (disk st1) as [p |] eqn:Hp; [| discriminate].
    intros [= <-]. simpl. congruence.
  - exists st1. split; [exact Hrun |]. split; [exact Hload |].
    intros k m Harg Hlt.
    destruct (Hbest k m Harg Hlt) as (_ & _ & st_k & Hk & Hd).
    destruct (Hload _ Hd) as (st' & Ht & Hp' & Hd').
    exists st', st_k. auto.
Qed.

(** C8: with validation enabled, [validate] appends the validation
    error to [epoch_loss_list] whether or not it is a new best; every
    epoch of a run extends the history of the previous epochs by exactly
    one entry, leaving the earlier entries in place; and the history
    [train] ends with has one entry per epoch, the reload not touching
    it. *)
Theorem C8_epoch_loss_list_append_only (st0 : Trainer) :
  validate_enabled args = true -> batch_size args <> 0%Z ->
  (forall index st,
      exists st', validate index st = Ret tt st'
                  /\ epoch_loss_list st'
                     = epoch_loss_list st ++ [validation_error (params st)])
  /\ (forall n,
        exists st_n st_Sn,
          train_epochs args n st0 = Ret tt st_n
          /\ train_epochs args (S n) st0 = Ret tt st_Sn
          /\ length (epoch_loss_list st_n) = n
          /\ epoch_loss_list st_Sn
             = epoch_loss_list st_n ++ [validation_error (params st_Sn)])
  /\ (exists st1,
        train_epochs args (Z.to_nat (epochs args)) st0 = Ret tt st1
        /\ epoch_loss_list (final_state (train args st0)) = epoch_loss_list st1
        /\ length (epoch_loss_list (final_state (train args st0)))
           = Z.to_nat (epochs args)).
Proof.
  intros Hv Hbs. split; [| split].
  - intros index st. exists (after_validate index st).
    split; [apply validate_spec |].
    unfold after_validate. destruct (fl_ltb _ _); reflexivity.
  - intros n.
    destruct (@epochs_invariant C args Hv Hbs n st0)
      as (st_n & Hrun & Ho & (Hlen & _) & _).
    destruct (@run_epoch_history n st_n Hv Hbs Ho) as (st_Sn & Hep & Hell & _).
    exists st_n, st_Sn. repeat split; auto.
    rewrite train_epochs_S, Hrun. exact Hep.
  - destruct (@epochs_invariant C args Hv Hbs (Z.to_nat (epochs args)) st0)
      as (st1 & Hrun & _ & (Hlen & _) & _).
    exists st1. split; [exact Hrun |].
    assert (E : epoch_loss_list (final_state (train args st0))
                = epoch_loss_list st1).
    { rewrite train_unfold, Hrun, Hv, load_best_spec.
      destruct (disk st1); reflexivity. }
    split; [exact E | now rewrite E].
Qed.

(** C10: with validation enabled, when every validation error of the
    run is at least the initial sentinel 100, the epochs never write the
    best-model file, [best_epoch_index] stays 0, and [train] still tries
    to load that file after the last epoch: it raises when the file was
    absent and otherwise installs whatever an earlier run left there. *)
Theorem C10_no_checkpoint_when_errors_reach_sentinel (st0 : Trainer) :
  validate_enabled args = true -> batch_size args <> 0%Z ->
  exists st1,
    train_epochs args (Z.to_nat (epochs args)) st0 = Ret tt st1
    /\ trace (final_state (train args st0)) = trace st1 ++ [EvLoad]
    /\ ((forall e, In e (epoch_loss_list st1) -> fl_leb (Fin 100) e = true) ->
        disk st1 = disk st0
        /\ best_epoch_index st1 = 0%nat
        /\ min_error st1 = Fin 100
        /\ count_event is_save (trace st1) = count_event is_save (trace st0)
        /\ (disk st0 = None ->
            exists st', train args st0 = Raise FileNotFoundError st')
        /\ (forall p, disk st0 = Some p ->
            exists st', train args st0 = Ret tt st' /\ params st' = p)).
Proof.
  intros Hv Hbs.
  destruct (@epochs_invariant C args Hv Hbs (Z.to_nat (epochs args)) st0)
    as (st1 & Hrun & _ & _ & Hbest).
  exists st1. split; [exact Hrun |]. split.
  { rewrite train_unfold, Hrun, Hv, load_best_spec.
    destruct (disk st1); reflexivity. }
  intros Hall.
  destruct Hbest as [(Hm & Hi & Hd & Hs & _)
                    | (k & m & st_k & (Hk & _) & Hlt & _)].
  - repeat split; auto.
    + intros Hnone. rewrite train_unfold, Hrun, Hv, load_best_spec, Hd, Hnone.
      eexists. reflexivity.
    + intros p Hp. rewrite train_unfold, Hrun, Hv, load_best_spec, Hd, Hp.
      eexists. split; reflexivity.
  - exfalso. apply nth_error_In, Hall, fl_leb_Fin in Hk.
    exact (Qlt_not_le _ _ Hlt Hk).
Qed.

(** [test] is the loop followed by the read of the validation
    bookkeeping. *)
Lemma test_unfold (st : Trainer) :
  test args st
  = match test_loop (params st) test_graph_index_pairs 0 [] []
            (mkReport [] [] [] [] []) with
    | Err e => Raise e (eval_mode st)
    | Ok r =>
      if validate_enabled args then
        match optimizer st with
        | None => Raise AttributeError (eval_mode st)
        | Some _ => Ret r (eval_mode st)
        end
      else Ret r (eval_mode st)
    end.
Proof.
  unfold test, print_evaluation_bookkeeping, bind, get, set_training, modify,
    eval_mode. simpl.
  destruct (test_loop _ _ _ _ _ _) as [r | e]; simpl; [| reflexivity].
  destruct (validate_enabled args); [| reflexivity].
  destruct (optimizer st); reflexivity.
Qed.

(** C6 (amended): with [B > 0] test graphs and a trainer on which the
    report can read its bookkeeping (validation off, or [train] has
    run), [test] returns for every test set and computes exactly
    [floor (total / B)] precision-at-10 values and as many
    precision-at-20 values (one per completed block of [B] pairs; a
    trailing partial block contributes none).  It raises
    ZeroDivisionError when [B = 0] and there is a test pair, and
    AttributeError when validation is on and [train] has never run. *)
Theorem C6_one_precision_value_per_full_block (st : Trainer) :
  ((0 < test_graphs_len)%nat ->
   (validate_enabled args = false \/ optimizer st <> None ->
    exists r st',
      test args st = Ret r st'
      /\ length (prec_at_10_list r)
         = (length test_graph_index_pairs / test_graphs_len)%nat
      /\ length (prec_at_20_list r)
         = (length test_graph_index_pairs / test_graphs_len)%nat)
   /\ (validate_enabled args = true -> optimizer st = None ->
       exists st', test args st = Raise AttributeError st'))
  /\ (test_graphs_len = 0%nat -> test_graph_index_pairs <> [] ->
      exists st', test args st = Raise ZeroDivisionError st').
Proof.
  rewrite test_unfold. split.
  - intros Hb.
    destruct (test_loop_ok (params st) test_graph_index_pairs Hb 0 [] []
                (mkReport [] [] [] [] [])) as (r & -> & H10 & H20).
    simpl in H10, H20. rewrite Nat.Div0.div_0_l in H10, H20.
    split.
    + intros Hattr. exists r, (eval_mode st). split; [| lia].
      destruct (validate_enabled args); [| reflexivity].
      destruct Hattr as [Hv | Ho]; [discriminate |].
      destruct (optimizer st); [reflexivity | contradiction].
    + intros -> ->. eexists. reflexivity.
  - intros Hz Hne. destruct test_graph_index_pairs as [| p rest];
      [contradiction |].
    simpl. rewrite Hz. eexists. reflexivity.
Qed.

End TrainingRun.

(** *** The claims on concrete runs *)

Ltac nth_cases :=
  repeat match goal with
         | H : nth_error (_ :: _) ?j = Some _ |- _ =>
             destruct j; simpl in H; [injection H as <- |]
         | H : nth_error [] ?j = Some _ |- _ => destruct j; discriminate H
         end.

(** C3, as stated, fails when no epoch gets below the sentinel: with
    validation errors 102 then 101 the minimum sits at position 1, but
    [best_epoch_index] is still 0 and no checkpoint was written. *)
Lemma C3_counterexample_errors_above_sentinel :
  exists st2,
    @train_epochs (toy high_loss) histogram_only_args 2
      (toy_trainer high_loss 3 None) = Ret tt st2
    /\ epoch_loss_list st2 = [Fin (204 # 2); Fin (202 # 2)]
    /\ first_argmin (epoch_loss_list st2) 1 (202 # 2)
    /\ best_epoch_index st2 <> 1%nat
    /\ disk st2 = None.
Proof.
  eexists. split; [vm_compute; reflexivity |]. simpl.
  split; [reflexivity |]. split; [| split; [discriminate | reflexivity]].
  split; [reflexivity |]. split.
  - intros j e H. nth_cases; reflexivity.
  - intros j e Hj H. nth_cases; try reflexivity; lia.
Qed.

Lemma C3_best_checkpoint_first_argmin_below_sentinel_witness :
  exists stN,
    @train_epochs (toy dip_loss) histogram_only_args 3
      (toy_trainer dip_loss 3 None) = Ret tt stN
    /\ epoch_loss_list stN = [Fin (2 # 2); Fin (0 # 2); Fin (2 # 2)]
    /\ best_epoch_index stN = 1%nat
    /\ disk stN = Some 1.
Proof.
  destruct (@C3_best_checkpoint_first_argmin_below_sentinel (toy dip_loss)
              histogram_only_args 3 (toy_trainer dip_loss 3 None)
              eq_refl ltac:(discriminate))
    as (stN & Hrun & _ & _ & Hbest).
  exists stN. split; [exact Hrun |].
  vm_compute in Hrun. injection Hrun as <-.
  split; [reflexivity |].
  destruct (Hbest 1%nat (0 # 2)) as (Hi & _ & st_k & Hk & Hd).
  - split; [reflexivity |]. split.
    + intros j e H. simpl in H. nth_cases; reflexivity.
    + intros j e Hj H. simpl in H. nth_cases; try reflexivity; lia.
  - reflexivity.
  - split; [exact Hi |].
    vm_compute in Hk. injection Hk as <-. exact Hd.
Defined.

(** C4, as stated, fails when no epoch gets below the sentinel and an
    earlier run left a file at the best-model path: with validation
    errors 102, 101, 100 nothing is saved, [train] returns after
    loading the old file, and the live parameters (7) are those of no
    epoch of the run (2, 1 and 0), so not the best model of the run. *)
Lemma C4_counterexample_stale_checkpoint :
  exists st' s1 s2 s3,
    @train (toy high_loss) histogram_only_args
      (toy_trainer high_loss 3 (Some 7)) = Ret tt st'
    /\ @train_epochs (toy high_loss) histogram_only_args 1
         (toy_trainer high_loss 3 (Some 7)) = Ret tt s1
    /\ @train_epochs (toy high_loss) histogram_only_args 2
         (toy_trainer high_loss 3 (Some 7)) = Ret tt s2
    /\ @train_epochs (toy high_loss) histogram_only_args 3
         (toy_trainer high_loss 3 (Some 7)) = Ret tt s3
    /\ epoch_loss_list s3 = [Fin (204 # 2); Fin (202 # 2); Fin (200 # 2)]
    /\ (params st' : Q) = 7
    /\ (params s1 : Q) = 2 /\ (params s2 : Q) = 1 /\ (params s3 : Q) = 0
    /\ disk st' = Some (params st').
Proof.
  do 4 eexists.
  split; [vm_compute; reflexivity |].
  split; [vm_compute; reflexivity |].
  split; [vm_compute; reflexivity |].
  split; [vm_compute; reflexivity |].
  repeat split.
Qed.

Lemma C4_train_ends_with_best_checkpoint_witness :
  let st' := final_state (@train (toy dip_loss) histogram_only_args
                            (toy_trainer dip_loss 3 None)) in
  disk st' = Some (params st') /\ params st' = 1.
Proof.
  split; [| reflexivity].
  apply (proj1 (@C4_train_ends_with_best_checkpoint (toy dip_loss)
                  histogram_only_args (toy_trainer dip_loss 3 None)
                  eq_refl ltac:(discriminate))).
  vm_compute. reflexivity.
Defined.

Lemma C8_epoch_loss_list_append_only_witness :
  length (epoch_loss_list
            (final_state (@train (toy dip_loss) histogram_only_args
                            (toy_trainer dip_loss 3 None)))) = 3%nat.
Proof.
  destruct (@C8_epoch_loss_list_append_only (toy dip_loss)
              histogram_only_args (toy_trainer dip_loss 3 None)
              eq_refl ltac:(discriminate))
    as (_ & _ & st1 & _ & _ & Hlen).
  exact Hlen.
Defined.

Lemma C10_no_checkpoint_when_errors_reach_sentinel_witness :
  exists st',
    @train (toy high_loss) histogram_only_args (toy_trainer high_loss 3 None)
    = Raise FileNotFoundError st'.
Proof.
  destruct (@C10_no_checkpoint_when_errors_reach_sentinel (toy high_loss)
              histogram_only_args (toy_trainer high_loss 3 None)
              eq_refl ltac:(discriminate))
    as (st1 & Hrun & _ & H).
  vm_compute in Hrun. injection Hrun as <-.
  destruct H as (_ & _ & _ & _ & Hraise & _).
  - intros e [<- | [<- | [<- | []]]]; reflexivity.
  - exact (Hraise eq_refl).
Defined.

(** C6, as stated, fails on a test set that is not a whole number of
    blocks: with three test pairs and two test graphs [test] (on a
    trainer that has trained) does not fail; it returns one precision
    value of each kind and drops the trailing pair. *)
Lemma C6_counterexample_partial_block :
  (length (@test_graph_index_pairs (toy dip_loss))
     mod (@test_graphs_len (toy dip_loss)) <> 0)%nat
  /\ exists r st',
       @test (toy dip_loss) histogram_only_args (toy_trainer_ready dip_loss 3)
       = Ret r st'
       /\ length (prec_at_10_list r) = 1%nat
       /\ length (prec_at_20_list r) = 1%nat.
Proof.
  split; [vm_compute; discriminate |].
  eexists. eexists. split; [vm_compute; reflexivity |]. split; reflexivity.
Qed.

Lemma C6_one_precision_value_per_full_block_witness :
  exists r st',
    @test (toy dip_loss) histogram_only_args (toy_trainer_ready dip_loss 3)
    = Ret r st'
    /\ length (prec_at_10_list r) = 1%nat
    /\ length (prec_at_20_list r) = 1%nat.
Proof.
  apply (proj1 (@C6_one_precision_value_per_full_block (toy dip_loss)
                  histogram_only_args (toy_trainer_ready dip_loss 3))).
  - simpl. lia.
  - right. discriminate.
Defined.

(** * Further properties of the code *)

(** ** When [forward] gets past the first fully-connected layer *)

Lemma fused_width_tensor_network (args : Args) :
  tensor_network args = true ->
  (histogram args = true -> (0 < bins args)%Z) ->
  fused_width args = Ok (calculate_bottleneck_features args)
  /\ forward_width args = Ok 1%Z.
Proof.
  intros Htn Hb.
  assert (Hf : fused_width args = Ok (calculate_bottleneck_features args)).
  { unfold fused_width, hist_width, calculate_bottleneck_features,
      tensor_scores_width, node_graph_score_width.
    rewrite Htn. destruct (histogram args).
    - rewrite (proj2 (Z.ltb_lt _ _) (Hb eq_refl)).
      destruct (node_graph_matching args); f_equal; lia.
    - destruct (node_graph_matching args); f_equal; lia. }
  split; [exact Hf |].
  unfold forward_width, fully_connected_first. rewrite Hf, Z.eqb_refl.
  reflexivity.
Qed.

(** X1: for a model with positive layer widths and the tensor network
    enabled (and a positive number of bins when the histogram is on),
    the row fused by [forward] has exactly [feature_count] columns,
    a positive number, so the bottleneck layer accepts it and [forward]
    returns a single score. *)
Theorem X1_forward_width_with_tensor_network (args : Args) :
  tensor_network args = true ->
  (0 < tensor_neurons args)%Z -> (0 < hidden_size args)%Z ->
  (0 < bottle_neck_neurons args)%Z ->
  (histogram args = true -> (0 < bins args)%Z) ->
  fused_width args = Ok (calculate_bottleneck_features args)
  /\ (0 < calculate_bottleneck_features args)%Z
  /\ forward_width args = Ok 1%Z.
Proof.
  intros Htn Hn Hh Hbn Hb.
  destruct (fused_width_tensor_network args Htn Hb) as [Hf Hw].
  split; [exact Hf |]. split; [| exact Hw].
  rewrite feature_count_closed_form.
  destruct (histogram args); [specialize (Hb eq_refl) |];
    destruct (node_graph_matching args); lia.
Qed.

Lemma X1_forward_width_with_tensor_network_witness :
  forward_width (mkArgs true 8 true 16 false true 16 16 4 3 true) = Ok 1%Z.
Proof.
  apply (X1_forward_width_with_tensor_network
           (mkArgs true 8 true 16 false true 16 16 4 3 true));
    reflexivity.
Defined.

Lemma forward_width_ok_inv (args : Args) (w : Z) :
  forward_width args = Ok w ->
  exists f, fused_width args = Ok f /\ f = calculate_bottleneck_features args.
Proof.
  unfold forward_width, fully_connected_first.
  destruct (fused_width args) as [f |]; [| discriminate].
  destruct (Z.eqb_spec f (calculate_bottleneck_features args)); [| discriminate].
  intros _. eauto.
Qed.

(** Where the width check of [forward] passes, for arbitrary integers. *)
Lemma forward_width_ok_cases (args : Args) :
  (forward_width args = Ok 1%Z <->
   (tensor_network args = true
    /\ (histogram args = true -> (0 < bins args)%Z))
   \/ (tensor_network args = false /\ histogram args = true
       /\ (0 < bins args)%Z /\ tensor_neurons args = 0%Z))
  /\ (tensor_network args = false -> histogram args = false ->
      forward_width args = Err UnboundLocalError).
Proof.
  split.
  - split.
    + intros H. apply forward_width_ok_inv in H.
      destruct H as (f & Hf & ->). revert Hf.
      rewrite feature_count_closed_form.
      unfold fused_width, hist_width, tensor_scores_width,
        node_graph_score_width.
      destruct (tensor_network args) eqn:Htn, (histogram args) eqn:Hh;
        destruct (Z.ltb_spec 0 (bins args)) as [Hb | Hb];
        try discriminate.
      * intros _. left. auto.
      * intros _. left. split; auto; discriminate.
      * intros _. left. split; auto; discriminate.
      * intros Hf. right. repeat split; auto.
        destruct (node_graph_matching args);
          apply Ok_inj in Hf; lia.
    + intros [[Htn Hb] | (Htn & Hh & Hb & Hz)].
      * now apply fused_width_tensor_network.
      * unfold forward_width, fully_connected_first.
        rewrite feature_count_closed_form.
        unfold fused_width, hist_width, node_graph_score_width.
        rewrite Htn, Hh, Hz, (proj2 (Z.ltb_lt _ _) Hb).
        destruct (node_graph_matching args).
        -- replace (bins args + 4 * hidden_size args
                    =? 2 * 0 + bins args + 4 * hidden_size args)%Z with true;
             [reflexivity | symmetry; apply Z.eqb_eq; lia].
        -- replace (bins args =? 2 * 0 + bins args + 0)%Z with true;
             [reflexivity | symmetry; apply Z.eqb_eq; lia].
  - intros Htn Hh. unfold forward_width, fused_width. now rewrite Htn, Hh.
Qed.

(** X2: for a model with positive layer widths, the row fused by
    [forward] passes the width check of the first fully-connected
    layer exactly when the tensor network is on (with positive bins if
    the histogram is on); with neither the tensor network nor the
    histogram enabled [forward] raises UnboundLocalError, whatever the
    other options are. *)
Theorem X2_forward_width_returns_iff (args : Args) :
  (0 < tensor_neurons args)%Z -> (0 < hidden_size args)%Z ->
  (0 < bottle_neck_neurons args)%Z ->
  (forward_width args = Ok 1%Z <->
   tensor_network args = true
   /\ (histogram args = true -> (0 < bins args)%Z))
  /\ (tensor_network args = false -> histogram args = false ->
      forward_width args = Err UnboundLocalError).
Proof.
  intros Hn Hh Hbn.
  destruct (forward_width_ok_cases args) as [Hiff Hunbound].
  split; [| exact Hunbound]. split.
  - intros H. apply Hiff in H.
    destruct H as [H | (_ & _ & _ & Hz)]; [exact H | lia].
  - intros H. apply Hiff. now left.
Qed.

Lemma X2_forward_width_returns_iff_witness :
  forward_width (mkArgs false 8 false 16 false true 16 16 4 3 true)
  = Err UnboundLocalError.
Proof.
  apply (proj2 (X2_forward_width_returns_iff
                  (mkArgs false 8 false 16 false true 16 16 4 3 true)
                  eq_refl eq_refl eq_refl));
    reflexivity.
Defined.

(** ** Batching *)

Section BatchingFacts.
Context {C : Collaborators}.
Variable args : Args.

Lemma firstn_plus {A} (a b : nat) (l : list A) :
  firstn (a + b) l = firstn a l ++ firstn b (skipn a l).
Proof.
  revert l. induction a as [| a IH]; intros l; simpl.
  - reflexivity.
  - destruct l as [| x l]; simpl.
    + now rewrite firstn_nil.
    + now rewrite IH.
Qed.

Lemma concat_slices {A} (l : list A) (s k : nat) :
  concat (map (fun i => slice l (i * s) (i * s + s)) (seq 0 k))
  = firstn (k * s) l.
Proof.
  induction k as [| k IH].
  - reflexivity.
  - rewrite seq_S, map_app, concat_app, IH. simpl.
    rewrite app_nil_r. unfold slice.
    replace (k * s + s - k * s)%nat with s by lia.
    replace (s + k * s)%nat with (k * s + s)%nat by lia.
    now rewrite firstn_plus.
Qed.

Lemma ceil_div_bounds (n s : nat) :
  (0 < s)%nat ->
  (n <= (n + s - 1) / s * s /\ (n + s - 1) / s * s < n + s)%nat.
Proof.
  intros Hs.
  pose proof (Nat.div_mod_eq (n + s - 1) s) as Hdm.
  pose proof (Nat.mod_upper_bound (n + s - 1) s ltac:(lia)) as Hmod.
  nia.
Qed.

Lemma create_batches_positive :
  (0 < batch_size args)%Z ->
  create_batches args
  = Ok (map (fun i => slice training_graph_index_pairs
                        (i * Z.to_nat (batch_size args))
                        (i * Z.to_nat (batch_size args)
                         + Z.to_nat (batch_size args)))
            (seq 0 ((length training_graph_index_pairs
                     + Z.to_nat (batch_size args) - 1)
                    / Z.to_nat (batch_size args)))).
Proof.
  intros Hbs. unfold create_batches, py_range_step.
  destruct (Z.eqb_spec (batch_size args) 0); [lia |].
  destruct (Z.ltb_spec (batch_size args) 0); [lia |].
  now rewrite map_map.
Qed.

(** X3: for a positive batch size, [create_batches] cuts the training
    pairs into consecutive batches: concatenating the batches gives the
    training pairs back in order, there are [ceil (n / batch_size)] of
    them, and batch [i] holds [min (batch_size, n - i * batch_size)]
    pairs, at least one. *)
Theorem X3_create_batches_partition :
  (0 < batch_size args)%Z ->
  exists batches,
    create_batches args = Ok batches
    /\ concat batches = training_graph_index_pairs
    /\ (length training_graph_index_pairs
        <= length batches * Z.to_nat (batch_size args)
        < length training_graph_index_pairs + Z.to_nat (batch_size args))%nat
    /\ forall i batch, nth_error batches i = Some batch ->
         length batch
         = Nat.min (Z.to_nat (batch_size args))
                   (length training_graph_index_pairs
                    - i * Z.to_nat (batch_size args))
         /\ (0 < length batch)%nat.
Proof.
  intros Hbs. rewrite (create_batches_positive Hbs).
  set (s := Z.to_nat (batch_size args)).
  set (l := training_graph_index_pairs).
  assert (Hs : (0 < s)%nat) by (subst s; lia).
  destruct (ceil_div_bounds (length l) Hs) as [Hlo Hhi].
  eexists. split; [reflexivity |]. split; [| split].
  - rewrite concat_slices. apply firstn_all2. exact Hlo.
  - rewrite length_map, length_seq. split; assumption.
  - intros i batch Hi.
    pose proof (nth_error_lt _ _ Hi) as Hlt.
    rewrite length_map, length_seq in Hlt.
    rewrite nth_error_map, nth_error_seq in Hi.
    destruct (Nat.ltb_spec i ((length l + s - 1) / s)) as [_ | Hge]; [| lia].
    simpl in Hi. injection Hi as <-.
    unfold slice. rewrite length_firstn, length_skipn.
    replace (i * s + s - i * s)%nat with s by lia.
    split; [reflexivity |].
    assert (i * s < length l)%nat by nia. lia.
Qed.

End BatchingFacts.

Lemma X3_create_batches_partition_witness :
  exists batches,
    @create_batches (toy dip_loss)
      (mkArgs true 8 false 16 false false 16 16 3 3 true) = Ok batches
    /\ concat batches = [0; 1; 2; 3]%nat.
Proof.
  destruct (@X3_create_batches_partition (toy dip_loss)
              (mkArgs true 8 false 16 false false 16 16 3 3 true))
    as (batches & H1 & H2 & _); [reflexivity |].
  exists batches. split; [exact H1 | exact H2].
Defined.

(** ** Optimizer steps and the run without validation *)

Section RunFacts.
Context {C : Collaborators}.
Variable args : Args.

Lemma count_event_snoc (f : event -> bool) (t : list event) (e : event) :
  count_event f (t ++ [e])
  = (count_event f t + (if f e then 1 else 0))%nat.
Proof.
  rewrite count_event_app. unfold count_event at 2. simpl.
  destruct (f e); reflexivity.
Qed.

(** The batch loop runs every batch once: one [zero_grad] and one
    optimizer step per batch, and [main_index] counts the pairs. *)
Lemma batch_loop_counts (batches : list (list Pair)) :
  Forall (fun batch => batch <> []) batches ->
  forall (m : nat) (st : Trainer),
    optimizer st <> None ->
    exists n st',
      batch_loop batches m st = Ret n st'
      /\ n = (m + length (concat batches))%nat
      /\ batch_frame st st'
      /\ count_event is_step (trace st')
         = (count_event is_step (trace st) + length batches)%nat
      /\ count_event is_zero_grad (trace st')
         = (count_event is_zero_grad (trace st) + length batches)%nat
      /\ count_event is_load (trace st') = count_event is_load (trace st)
      /\ training st' = training st
      /\ (batches = [] -> params st' = params st).
Proof.
  induction 1 as [| batch rest Hb _ IH]; intros m st Ho; simpl.
  - exists m, st. split; [reflexivity |].
    repeat split; auto; lia.
  - destruct (optimizer st) as [o |] eqn:Eo; [| contradiction].
    unfold bind at 1. rewrite (process_batch_spec _ Eo Hb).
    unfold bind, get, set_loss_sum, modify. simpl.
    destruct (m + length batch)%nat as [| k] eqn:Ek.
    { destruct batch; [contradiction | simpl in Ek; lia]. }
    match goal with
    | |- exists n st', batch_loop _ _ ?s = _ /\ _ =>
        destruct (IH (S k) s)
          as (n & st' & Hrun & Hn & Hfr & Hs & Hz & Hl & Ht & _)
    end.
    { simpl. discriminate. }
    exists n, st'. split; [exact Hrun |]. simpl in Hs, Hz, Hl, Ht.
    rewrite count_event_app in Hs, Hz, Hl.
    change (count_event is_step [EvZeroGrad; EvBackward; EvStep]) with 1%nat in Hs.
    change (count_event is_zero_grad [EvZeroGrad; EvBackward; EvStep])
      with 1%nat in Hz.
    change (count_event is_load [EvZeroGrad; EvBackward; EvStep]) with 0%nat in Hl.
    split; [rewrite length_app; lia |].
    split.
    { eapply batch_frame_trans; [| exact Hfr].
      unfold batch_frame. simpl. repeat split; auto.
      - rewrite count_event_app. unfold count_event. simpl. lia.
      - discriminate. }
    repeat split; try lia; auto. discriminate.
Qed.

Lemma after_validate_counts (index : nat) (st : Trainer) :
  count_event is_step (trace (after_validate index st))
  = count_event is_step (trace st)
  /\ count_event is_zero_grad (trace (after_validate index st))
     = count_event is_zero_grad (trace st)
  /\ count_event is_load (trace (after_validate index st))
     = count_event is_load (trace st)
  /\ params (after_validate index st) = params st
  /\ optimizer (after_validate index st) = optimizer st.
Proof.
  unfold after_validate. destruct (fl_ltb _ _); simpl;
    rewrite ?count_event_snoc; simpl; repeat split; lia.
Qed.

(** What one epoch does to the trace and to the parameters. *)
Lemma run_epoch_counts (epoch_index : nat) (st : Trainer)
    (batches : list (list Pair)) :
  create_batches args = Ok batches -> batch_size args <> 0%Z ->
  optimizer st <> None ->
  exists st_mid,
    run_epoch args epoch_index st
    = Ret tt (if validate_enabled args
              then after_validate epoch_index st_mid else st_mid)
    /\ batch_frame st st_mid
    /\ count_event is_step (trace st_mid)
       = (count_event is_step (trace st) + length batches)%nat
    /\ count_event is_zero_grad (trace st_mid)
       = (count_event is_zero_grad (trace st) + length batches)%nat
    /\ count_event is_load (trace st_mid) = count_event is_load (trace st)
    /\ training st_mid = true
    /\ (batches = [] -> params st_mid = params st).
Proof.
  intros Hcb Hbs Ho.
  destruct (@create_batches_ok C args Hbs) as (batches' & Hcb' & Hne).
  rewrite Hcb in Hcb'. injection Hcb' as <-.
  unfold run_epoch. rewrite Hcb.
  unfold bind at 1. unfold set_training, modify.
  unfold bind at 1. simpl. unfold ret at 1.
  unfold bind at 1. unfold set_loss_sum, modify.
  unfold bind at 1.
  match goal with
  | |- context [batch_loop _ _ ?s] =>
      destruct (batch_loop_counts Hne 0 s)
        as (n & st' & -> & _ & Hfr & Hs & Hz & Hl & Ht & Hp)
  end.
  { simpl. exact Ho. }
  exists st'. split.
  - destruct (validate_enabled args); [apply validate_spec | reflexivity].
  - unfold batch_frame in *. simpl in *. repeat split; tauto.
Qed.

(** The state after [n] epochs, with or without validation. *)
Lemma train_epochs_counts (batches : list (list Pair)) (st0 : Trainer) :
  create_batches args = Ok batches -> batch_size args <> 0%Z ->
  forall n : nat,
    exists st,
      train_epochs args n st0 = Ret tt st
      /\ optimizer st <> None
      /\ count_event is_step (trace st)
         = (count_event is_step (trace st0) + n * length batches)%nat
      /\ count_event is_zero_grad (trace st)
         = (count_event is_zero_grad (trace st0) + n * length batches)%nat
      /\ count_event is_load (trace st) = count_event is_load (trace st0)
      /\ (batches = [] -> params st = params st0)
      /\ (validate_enabled args = false ->
          disk st = disk st0
          /\ epoch_loss_list st = []
          /\ best_epoch_index st = 0%nat
          /\ min_error st = Fin 100
          /\ count_event is_save (trace st) = count_event is_save (trace st0)).
Proof.
  intros Hcb Hbs n. induction n as [| n IH].
  - exists (init_state args st0). rewrite train_epochs_0.
    split; [reflexivity |]. simpl. repeat split; auto; try lia. discriminate.
  - destruct IH as (st & Hrun & Ho & Hs & Hz & Hl & Hp & Hv).
    destruct (@run_epoch_counts n st batches Hcb Hbs Ho)
      as (mid & Hep & Hfr & Ms & Mz & Ml & _ & Mp).
    rewrite train_epochs_S, Hrun, Hep.
    destruct Hfr as (Fmin & Fbest & Fell & Fdisk & Fsave & Fopt).
    destruct (after_validate_counts n mid) as (As & Az & Al & Ap & Ao).
    destruct (validate_enabled args) eqn:Ev.
    + eexists. split; [reflexivity |].
      rewrite As, Az, Al, Ap, Ao.
      repeat split; auto; try lia; try discriminate.
      intros E. rewrite (Mp E). auto.
    + exists mid. split; [reflexivity |].
      destruct (Hv eq_refl) as (V1 & V2 & V3 & V4 & V5).
      repeat split; auto; try lia; try congruence.
      intros E. rewrite (Mp E). auto.
Qed.

(** X4: [train] performs exactly one [zero_grad] and one optimizer
    step per batch and per epoch, with or without validation, and tries
    to load the best-model file once exactly when validation is
    enabled (also when that load raises). *)
Theorem X4_train_one_step_per_batch_per_epoch
    (batches : list (list Pair)) (st0 : Trainer) :
  create_batches args = Ok batches -> batch_size args <> 0%Z ->
  count_event is_step (trace (final_state (train args st0)))
  = (count_event is_step (trace st0)
     + Z.to_nat (epochs args) * length batches)%nat
  /\ count_event is_zero_grad (trace (final_state (train args st0)))
     = (count_event is_zero_grad (trace st0)
        + Z.to_nat (epochs args) * length batches)%nat
  /\ count_event is_load (trace (final_state (train args st0)))
     = (count_event is_load (trace st0)
        + (if validate_enabled args then 1 else 0))%nat.
Proof.
  intros Hcb Hbs.
  destruct (train_epochs_counts st0 Hcb Hbs (Z.to_nat (epochs args)))
    as (st & Hrun & _ & Hs & Hz & Hl & _).
  rewrite train_unfold, Hrun.
  destruct (validate_enabled args).
  - rewrite load_best_spec.
    destruct (disk st); simpl; rewrite !count_event_snoc; simpl; lia.
  - simpl. lia.
Qed.

(** X5: with validation disabled [train] returns after the last epoch
    without touching the best-model file or the validation bookkeeping:
    no save, no load, an empty epoch loss history, and the live
    parameters are those the last epoch ended with. *)
Theorem X5_train_without_validation (st0 : Trainer) :
  validate_enabled args = false -> batch_size args <> 0%Z ->
  exists st',
    train args st0 = Ret tt st'
    /\ train_epochs args (Z.to_nat (epochs args)) st0 = Ret tt st'
    /\ disk st' = disk st0
    /\ epoch_loss_list st' = []
    /\ best_epoch_index st' = 0%nat
    /\ min_error st' = Fin 100
    /\ count_event is_save (trace st') = count_event is_save (trace st0)
    /\ count_event is_load (trace st') = count_event is_load (trace st0).
Proof.
  intros Hv Hbs.
  destruct (@create_batches_ok C args Hbs) as (batches & Hcb & _).
  destruct (train_epochs_counts st0 Hcb Hbs (Z.to_nat (epochs args)))
    as (st & Hrun & _ & _ & _ & Hl & _ & Hno).
  destruct (Hno Hv) as (V1 & V2 & V3 & V4 & V5).
  exists st. rewrite train_unfold, Hrun, Hv. repeat split; auto.
Qed.

(** X6: a negative batch size is accepted silently: [create_batches]
    forms no batch, so every epoch runs without a single optimizer step
    and the parameters never change. *)
Theorem X6_negative_batch_size_trains_nothing (st0 : Trainer) (n : nat) :
  (batch_size args < 0)%Z ->
  create_batches args = Ok []
  /\ exists st,
       train_epochs args n st0 = Ret tt st
       /\ params st = params st0
       /\ count_event is_step (trace st) = count_event is_step (trace st0).
Proof.
  intros Hneg.
  assert (Hcb : create_batches args = Ok []).
  { unfold create_batches, py_range_step.
    destruct (Z.eqb_spec (batch_size args) 0); [lia |].
    destruct (Z.ltb_spec (batch_size args) 0); [reflexivity | lia]. }
  split; [exact Hcb |].
  destruct (train_epochs_counts st0 Hcb ltac:(lia) n)
    as (st & Hrun & _ & Hs & _ & _ & Hp & _).
  exists st. repeat split; auto. simpl in Hs. lia.
Qed.

(** X7: with a zero batch size and at least one epoch, [train] raises
    ValueError in the first epoch (from [range] with step 0), after
    creating the optimizer and resetting the validation bookkeeping but
    before any optimizer step, save or load. *)
Theorem X7_zero_batch_size_raises (st0 : Trainer) :
  batch_size args = 0%Z -> (0 < epochs args)%Z ->
  exists st',
    train args st0 = Raise ValueError st'
    /\ params st' = params st0
    /\ trace st' = trace st0
    /\ disk st' = disk st0
    /\ epoch_loss_list st' = []
    /\ optimizer st' = Some (adam_init args (params st0)).
Proof.
  intros Hz He.
  unfold train, epoch_indices.
  destruct (Z.to_nat (epochs args)) as [| k] eqn:Ek; [lia |].
  simpl. unfold bind, train_init, modify, run_epoch, bind, set_training,
    modify, create_batches, py_range_step.
  rewrite Hz. simpl. eexists. split; [reflexivity |]. simpl. auto.
Qed.

(** X8: [process_batch] raises AttributeError on a trainer without
    optimizer, leaving it untouched, and on an empty batch: there the
    gradients have been zeroed, but nothing is backpropagated and no
    optimizer step is taken. *)
Theorem X8_process_batch_attribute_errors (st : Trainer) :
  (optimizer st = None ->
   forall batch, process_batch batch st = Raise AttributeError st)
  /\ (forall o, optimizer st = Some o ->
        exists st',
          process_batch [] st = Raise AttributeError st'
          /\ params st' = params st
          /\ optimizer st' = Some o
          /\ grads st' = grad_zero
          /\ trace st' = trace st ++ [EvZeroGrad]).
Proof.
  split.
  - intros Ho batch. unfold process_batch, bind, get. simpl. now rewrite Ho.
  - intros o Ho. unfold process_batch, bind, get. simpl. rewrite Ho. simpl.
    eexists. split; [reflexivity |]. simpl. auto.
Qed.

End RunFacts.

Lemma X4_train_one_step_per_batch_per_epoch_witness :
  count_event is_step
    (trace (final_state (@train (toy dip_loss)
                           (mkArgs true 8 false 16 false false 16 16 3 3 true)
                           (toy_trainer dip_loss 3 None)))) = 6%nat.
Proof.
  apply (proj1 (@X4_train_one_step_per_batch_per_epoch (toy dip_loss)
                  (mkArgs true 8 false 16 false false 16 16 3 3 true)
                  [[0; 1; 2]; [3]]%nat (toy_trainer dip_loss 3 None)
                  eq_refl ltac:(discriminate))).
Defined.

Lemma X5_train_without_validation_witness :
  exists st',
    @train (toy high_loss) (mkArgs true 8 false 16 false false 16 16 4 3 false)
      (toy_trainer high_loss 3 None) = Ret tt st'
    /\ epoch_loss_list st' = [].
Proof.
  destruct (@X5_train_without_validation (toy high_loss)
              (mkArgs true 8 false 16 false false 16 16 4 3 false)
              (toy_trainer high_loss 3 None) eq_refl ltac:(discriminate))
    as (st' & H & _ & _ & He & _).
  exists st'. split; [exact H | exact He].
Defined.

Lemma X6_negative_batch_size_trains_nothing_witness :
  exists st,
    @train_epochs (toy dip_loss)
      (mkArgs true 8 false 16 false false 16 16 (-4) 3 true) 3
      (toy_trainer dip_loss 3 None) = Ret tt st
    /\ params st = 3.
Proof.
  destruct (@X6_negative_batch_size_trains_nothing (toy dip_loss)
              (mkArgs true 8 false 16 false false 16 16 (-4) 3 true)
              (toy_trainer dip_loss 3 None) 3 eq_refl)
    as (_ & st & H & Hp & _).
  exists st. split; [exact H | exact Hp].
Defined.

Lemma X7_zero_batch_size_raises_witness :
  exists st',
    @train (toy dip_loss) (mkArgs true 8 false 16 false false 16 16 0 3 true)
      (toy_trainer dip_loss 3 None) = Raise ValueError st'.
Proof.
  destruct (@X7_zero_batch_size_raises (toy dip_loss)
              (mkArgs true 8 false 16 false false 16 16 0 3 true)
              (toy_trainer dip_loss 3 None) eq_refl eq_refl)
    as (st' & H & _).
  exists st'. exact H.
Defined.

Lemma X8_process_batch_attribute_errors_witness :
  @process_batch (toy dip_loss) [0; 1]%nat (toy_trainer dip_loss 3 None)
  = Raise AttributeError (toy_trainer dip_loss 3 None).
Proof.
  apply (proj1 (@X8_process_batch_attribute_errors (toy dip_loss)
                  (toy_trainer dip_loss 3 None))).
  reflexivity.
Defined.

(** ** What [test] reports *)

Section TestFacts.
Context {C : Collaborators}.

Lemma slice_snoc {A} (xs ys : list A) (y : A) (a : nat) :
  (a <= length xs)%nat ->
  slice (xs ++ y :: ys) a (S (length xs))
  = slice (xs ++ y :: ys) a (length xs) ++ [y].
Proof.
  intros Ha. unfold slice.
  assert (Hl : length (skipn a xs) = (length xs - a)%nat) by apply length_skipn.
  replace (S (length xs) - a)%nat with (length (skipn a xs) + 1)%nat by lia.
  replace (length xs - a)%nat with (length (skipn a xs) + 0)%nat by lia.
  rewrite skipn_app.
  replace (a - length xs)%nat with 0%nat by lia. cbn [skipn].
  rewrite !firstn_app_2. cbn [firstn]. now rewrite app_nil_r.
Qed.

Lemma firstn_snoc {A} (xs ys : list A) (y : A) :
  firstn (S (length xs)) (xs ++ y :: ys)
  = firstn (length xs) (xs ++ y :: ys) ++ [y].
Proof.
  rewrite !firstn_app, firstn_all, Nat.sub_diag.
  rewrite (firstn_all2 (n := S (length xs))) by lia.
  replace (S (length xs) - length xs)%nat with 1%nat by lia.
  cbn [firstn]. now rewrite app_nil_r.
Qed.

Lemma slice_empty {A} (l : list A) (a : nat) : slice l a a = [].
Proof. unfold slice. now rewrite Nat.sub_diag. Qed.

Lemma block_boundary (i b : nat) :
  (0 < b)%nat ->
  (i / b * b <= i)%nat
  /\ (((i + 1) mod b =? 0)%nat = true ->
      (S i / b = i / b + 1 /\ i / b * b + b = S i)%nat)
  /\ (((i + 1) mod b =? 0)%nat = false -> (S i / b = i / b)%nat).
Proof.
  intros Hb. pose proof (succ_div i Hb) as Hs.
  pose proof (Nat.div_mod_eq i b) as Hi.
  pose proof (Nat.div_mod_eq (S i) b) as HSi.
  split; [nia |]. split; intros E; rewrite E in Hs.
  - split; [exact Hs |].
    apply Nat.eqb_eq in E. replace (i + 1)%nat with (S i) in E by lia. nia.
  - lia.
Qed.

(** The invariant of the loop of [test]: the arrays hold the pairs
    processed so far, the precision lists one value per completed
    block, and the accumulators the current partial block. *)
Lemma test_loop_contents (p : Params) (all : list Pair) :
  (0 < test_graphs_len)%nat ->
  let G := map (fun pair => target (get_data pair Test)) all in
  let P := map (fun pair => model false p (get_data pair Test)) all in
  let prec k (n : nat) :=
    map (fun j => prec_at_ks (test_block G j) (test_block P j) k) (seq 0 n) in
  forall (rest done : list Pair) (tg tp : list Q) (r : TestReport),
    all = done ++ rest ->
    tg = slice G (length done / test_graphs_len * test_graphs_len) (length done) ->
    tp = slice P (length done / test_graphs_len * test_graphs_len) (length done) ->
    ground_truth r = firstn (length done) G ->
    prediction_list r = firstn (length done) P ->
    scores r = map (fun pair => calculate_loss (model false p (get_data pair Test))
                                           (target (get_data pair Test))) done ->
    prec_at_10_list r = prec 10%Z (length done / test_graphs_len)%nat ->
    prec_at_20_list r = prec 20%Z (length done / test_graphs_len)%nat ->
    exists r',
      test_loop p rest (length done) tg tp r = Ok r'
      /\ ground_truth r' = G
      /\ prediction_list r' = P
      /\ scores r' = map (fun pair => calculate_loss (model false p (get_data pair Test))
                                           (target (get_data pair Test))) all
      /\ prec_at_10_list r' = prec 10%Z (length all / test_graphs_len)%nat
      /\ prec_at_20_list r' = prec 20%Z (length all / test_graphs_len)%nat.
Proof.
  intros Hb G P prec rest.
  induction rest as [| x rest IH]; intros done tg tp r Hall Htg Htp Hg Hp Hs H10 H20.
  - rewrite app_nil_r in Hall. subst all. simpl.
    exists r. split; [reflexivity |].
    assert (HG : length G = length done) by (subst G; apply length_map).
    assert (HP : length P = length done) by (subst P; apply length_map).
    rewrite <- HG in Hg at 1. rewrite <- HP in Hp at 1.
    rewrite firstn_all in Hg, Hp. auto.
  - simpl.
    destruct (block_boundary (length done) Hb) as (Hle & Htrue & Hfalse).
    destruct test_graphs_len as [| b] eqn:EB; [lia |].
    assert (HGs : G = map (fun pair => target (get_data pair Test)) done
                      ++ target (get_data x Test)
                      :: map (fun pair => target (get_data pair Test)) rest).
    { subst G. rewrite Hall, map_app. reflexivity. }
    assert (HPs : P = map (fun pair => model false p (get_data pair Test)) done
                      ++ model false p (get_data x Test)
                      :: map (fun pair => model false p (get_data pair Test)) rest).
    { subst P. rewrite Hall, map_app. reflexivity. }
    assert (Htg' : tg ++ [target (get_data x Test)]
                   = slice G (length done / S b * S b) (S (length done))).
    { rewrite Htg. rewrite HGs at 2. rewrite HGs at 1.
      rewrite <- (length_map (fun pair => target (get_data pair Test)) done) at 2 4.
      symmetry. apply slice_snoc. now rewrite length_map. }
    assert (Htp' : tp ++ [model false p (get_data x Test)]
                   = slice P (length done / S b * S b) (S (length done))).
    { rewrite Htp. rewrite HPs at 2. rewrite HPs at 1.
      rewrite <- (length_map (fun pair => model false p (get_data pair Test)) done)
        at 2 4.
      symmetry. apply slice_snoc. now rewrite length_map. }
    assert (Hg' : ground_truth r ++ [target (get_data x Test)]
                  = firstn (S (length done)) G).
    { rewrite Hg, HGs.
      rewrite <- (length_map (fun pair => target (get_data pair Test)) done).
      symmetry. apply firstn_snoc. }
    assert (Hp' : prediction_list r ++ [model false p (get_data x Test)]
                  = firstn (S (length done)) P).
    { rewrite Hp, HPs.
      rewrite <- (length_map (fun pair => model false p (get_data pair Test)) done).
      symmetry. apply firstn_snoc. }
    assert (Hall' : all = (done ++ [x]) ++ rest)
      by (now rewrite <- app_assoc).
    assert (Hlen : length (done ++ [x]) = S (length done))
      by (rewrite length_app; simpl; lia).
    destruct ((length done + 1) mod S b =? 0)%nat eqn:E.
    + destruct (Htrue eq_refl) as (Hq & Hend).
      match goal with
      | |- context [test_loop p rest (S (length done)) ?g ?q ?s] =>
          destruct (IH (done ++ [x]) g q s) as (r' & Hrun & Hres)
      end; rewrite ?Hlen; auto.
      * rewrite Hq. replace ((length done / S b + 1) * S b)%nat
          with (S (length done)) by lia.
        now rewrite slice_empty.
      * rewrite Hq. replace ((length done / S b + 1) * S b)%nat
          with (S (length done)) by lia.
        now rewrite slice_empty.
      * cbn [scores]. rewrite Hs, map_app. reflexivity.
      * cbn [prec_at_10_list]. rewrite H10, Hq, Htg', Htp'. subst prec.
        cbv beta. rewrite Nat.add_1_r, seq_S, map_app. cbn [map Nat.add].
        unfold test_block. rewrite EB, Hend. reflexivity.
      * cbn [prec_at_20_list]. rewrite H20, Hq, Htg', Htp'. subst prec.
        cbv beta. rewrite Nat.add_1_r, seq_S, map_app. cbn [map Nat.add].
        unfold test_block. rewrite EB, Hend. reflexivity.
      * rewrite Hlen in Hrun. exists r'. split; [exact Hrun | exact Hres].
    + pose proof (Hfalse eq_refl) as Hq.
      match goal with
      | |- context [test_loop p rest (S (length done)) ?g ?q ?s] =>
          destruct (IH (done ++ [x]) g q s) as (r' & Hrun & Hres)
      end; rewrite ?Hlen; auto.
      * now rewrite Hq.
      * now rewrite Hq.
      * cbn [scores]. rewrite Hs, map_app. reflexivity.
      * cbn [prec_at_10_list]. now rewrite Hq.
      * cbn [prec_at_20_list]. now rewrite Hq.
      * rewrite Hlen in Hrun. exists r'. split; [exact Hrun | exact Hres].
Qed.

(** X9: with at least one test graph, on a trainer on which the report
    can read its bookkeeping (validation off, or [train] has run),
    [test] returns a report whose arrays hold the target, the
    prediction and the loss of every test pair in test order, and whose
    [k]-th precision-at-10 and precision-at-20 values are computed on
    exactly the [k]-th block of [len(test_graphs)] consecutive targets
    and predictions; apart from putting the model into evaluation mode
    it leaves the trainer as it was. *)
Theorem X9_test_report_contents (args : Args) (st : Trainer) :
  (0 < test_graphs_len)%nat ->
  validate_enabled args = false \/ optimizer st <> None ->
  exists r,
    test args st = Ret r (eval_mode st)
    /\ ground_truth r = test_targets
    /\ prediction_list r = test_predictions (params st)
    /\ scores r
       = map (fun pair => calculate_loss (model false (params st) (get_data pair Test))
                                         (target (get_data pair Test)))
             test_graph_index_pairs
    /\ prec_at_10_list r
       = map (fun k => prec_at_ks (test_block test_targets k)
                         (test_block (test_predictions (params st)) k) 10)
             (seq 0 (length test_graph_index_pairs / test_graphs_len))
    /\ prec_at_20_list r
       = map (fun k => prec_at_ks (test_block test_targets k)
                         (test_block (test_predictions (params st)) k) 20)
             (seq 0 (length test_graph_index_pairs / test_graphs_len)).
Proof.
  intros Hb Hattr. rewrite test_unfold.
  destruct (@test_loop_contents (params st) test_graph_index_pairs Hb
              test_graph_index_pairs [] [] [] (mkReport [] [] [] [] []))
    as (r & Hrun & Hg & Hp & Hs & H10 & H20);
    try reflexivity;
    try (simpl; rewrite Nat.Div0.div_0_l; simpl; now rewrite slice_empty);
    try (simpl; rewrite Nat.Div0.div_0_l; reflexivity).
  simpl in Hrun. rewrite Hrun.
  exists r. split; [| repeat split; assumption].
  destruct (validate_enabled args); [| reflexivity].
  destruct Hattr as [Hv | Ho]; [discriminate |].
  destruct (optimizer st); [reflexivity | contradiction].
Qed.

End TestFacts.

Lemma X9_test_report_contents_witness :
  exists r,
    @test (toy dip_loss) histogram_only_args (toy_trainer_ready dip_loss 3)
    = Ret r (eval_mode (toy_trainer_ready dip_loss 3))
    /\ ground_truth r = [0; 1; 2]
    /\ prec_at_10_list r = [@prec_at_ks (toy dip_loss) [0; 1] [3; 3] 10].
Proof.
  destruct (@X9_test_report_contents (toy dip_loss) histogram_only_args
              (toy_trainer_ready dip_loss 3))
    as (r & Hrun & Hg & _ & _ & H10 & _);
    [simpl; lia | right; discriminate |].
  exists r. split; [exact Hrun |]. split; [exact Hg | exact H10].
Defined.

(** ** Checkpoint files *)

Module CheckpointFacts.
Import Stdlib.Strings.String.
Import Checkpoints.
Local Open Scope string_scope.

Lemma length_append (a b : string) :
  String.length (a ++ b) = (String.length a + String.length b)%nat.
Proof. induction a as [| c a IH]; simpl; [reflexivity | now rewrite IH]. Qed.

Lemma best_model_path_fresh (root name filename : string) :
  best_model_path (init_paths root name filename)
  <> save_path (init_paths root name filename).
Proof.
  simpl. intros E. apply (f_equal String.length) in E.
  simpl in E. rewrite length_append in E. simpl in E. lia.
Qed.

Section Files.
Variable P : Type.

(** X10: when the file system accepts a write at the default save path,
    [save()] followed by [load()] restores the saved parameters,
    whatever happened to the live parameters in between: the default
    save path and the load path are the same string.  When it refuses
    the write (as for an empty filename, whose save path is a
    directory) [save()] fails. *)
Theorem X10_save_then_load_round_trip
    (writable : string -> bool) (root name filename : string)
    (h : Host P) (p' : P) :
  let paths := init_paths root name filename in
  (writable (save_path paths) = true ->
   exists h1 h',
     save_to_disk writable paths EmptyString h = Saved h1
     /\ load paths (set_live p' h1) = Ok h'
     /\ live h' = live h)
  /\ (writable (save_path paths) = false ->
      save_to_disk writable paths EmptyString h = SaveFailed P).
Proof.
  cbv zeta. unfold save_to_disk. rewrite String.eqb_refl. split.
  - intros ->. eexists. eexists. split; [reflexivity |].
    unfold load, set_live, save, write. cbn [files live].
    rewrite String.eqb_refl.
    change (load_path (init_paths root name filename))
      with (save_path (init_paths root name filename)).
    rewrite String.eqb_refl. split; reflexivity.
  - intros ->. reflexivity.
Qed.

(** X11: the best-validation checkpoint and the default save file never
    collide: after [save()] the reload at the end of [train] installs
    the same parameters as before it (or still finds no file), and
    saving a best checkpoint does not change what [load()] installs. *)
Theorem X11_best_checkpoint_and_default_save_are_distinct
    (root name filename : string) (h : Host P) :
  let paths := init_paths root name filename in
  best_model_path paths <> save_path paths
  /\ loaded (load_best_file paths (save paths EmptyString h))
     = loaded (load_best_file paths h)
  /\ loaded (load paths (save_best_file paths h)) = loaded (load paths h).
Proof.
  pose proof (@best_model_path_fresh root name filename) as Hne.
  cbv zeta. split; [exact Hne |].
  unfold load_best_file, load, save, save_best_file, write.
  cbn [files live]. rewrite String.eqb_refl.
  split.
  - destruct (String.eqb_spec
                (best_model_path (init_paths root name filename))
                (save_path (init_paths root name filename))) as [E | _];
      [contradiction |].
    destruct (files h _); reflexivity.
  - change (load_path (init_paths root name filename))
      with (save_path (init_paths root name filename)).
    destruct (String.eqb_spec
                (save_path (init_paths root name filename))
                (best_model_path (init_paths root name filename))) as [E | _];
      [symmetry in E; contradiction |].
    destruct (files h _); reflexivity.
Qed.

End Files.

Lemma X10_save_then_load_round_trip_witness :
  exists h1 h',
    save_to_disk (fun _ => true) (init_paths "../data/" "AIDS" "run")
      EmptyString (mkHost 1%nat (fun _ => None)) = Saved h1
    /\ load (init_paths "../data/" "AIDS" "run") (set_live 5%nat h1) = Ok h'
    /\ live h' = 1%nat.
Proof.
  apply (proj1 (@X10_save_then_load_round_trip nat (fun _ => true)
                  "../data/" "AIDS" "run"
                  (mkHost 1%nat (fun _ => None)) 5%nat)).
  reflexivity.
Defined.

End CheckpointFacts.

(** ** More on the histogram feature *)

Section MoreHistogramFacts.

(** X13: [calculate_histogram] raises a RuntimeError whenever the
    embedding widths of the two matrices differ ([torch.mm]) and
    whenever [bins] is not positive ([torch.histc]), whatever the
    matrices hold. *)
Theorem X13_calculate_histogram_runtime_errors (args : Args) (A B : Matrix) :
  ncols A <> nrows B \/ (bins args <= 0)%Z ->
  calculate_histogram args A B = Err RuntimeError.
Proof.
  intros H. unfold calculate_histogram, mm.
  destruct (Nat.eqb_spec (ncols A) (nrows B)) as [Hd | _]; [| reflexivity].
  destruct H as [Hn | Hb]; [contradiction |].
  unfold histc. destruct (Z.leb_spec (bins args) 0) as [_ | Hpos];
    [reflexivity | lia].
Qed.

Lemma X13_calculate_histogram_runtime_errors_witness :
  calculate_histogram histogram_only_args two_nodes three_nodes_t
  <> Err RuntimeError
  /\ calculate_histogram histogram_only_args three_nodes_t three_nodes_t
     = Err RuntimeError.
Proof.
  split; [vm_compute; discriminate |].
  apply (X13_calculate_histogram_runtime_errors histogram_only_args
           three_nodes_t three_nodes_t).
  left. simpl. lia.
Defined.

Lemma bin_count_le (lo hi : Q) (nbins : Z) (l : list Q) (b : nat) :
  (bin_count lo hi nbins l b <= length l)%nat.
Proof. unfold bin_count. apply filter_length_le. Qed.

(** X14: when both graphs have a node, every entry of the histogram is
    a fraction between 0 and 1. *)
Theorem X14_histogram_entries_are_fractions (args : Args) (A B : Matrix) :
  ncols A = nrows B -> (0 < bins args)%Z ->
  (0 < nrows A)%nat -> (0 < ncols B)%nat ->
  exists h : list Q,
    calculate_histogram args A B = Ok (map Fin h)
    /\ forall q, In q h -> 0 <= q <= 1.
Proof.
  intros Hd Hb HA HB. unfold calculate_histogram, mm.
  rewrite (proj2 (Nat.eqb_eq _ _) Hd).
  set (S := {| nrows := nrows A; ncols := ncols B;
               entry := fun i j => dot (ncols A) (fun k => entry A i k)
                                       (fun k => entry B k j) |}).
  destruct (histc_ok (view_column S) Hb) as (hist & Hh & Hlen & Hsum & _).
  rewrite Hh. rewrite view_column_length in Hsum. simpl in Hsum.
  assert (Hlpos : 0 < inject_Z (Z.of_nat (nrows A * ncols B))).
  { change 0 with (inject_Z 0). rewrite <- Zlt_Qlt. nia. }
  assert (Hpos : 0 < sumQ hist) by now rewrite Hsum.
  exists (map (fun c => c / sumQ hist) hist). split.
  - rewrite map_map. f_equal. apply map_ext. intros c. unfold fdiv.
    destruct (Qeq_bool (sumQ hist) 0) eqn:E; auto.
    apply Qeq_bool_iff in E. rewrite E in Hpos.
    exfalso. exact (Qlt_irrefl _ Hpos).
  - intros q Hq. apply in_map_iff in Hq. destruct Hq as (c & <- & Hc).
    unfold histc in Hh.
    destruct (Z.leb_spec (bins args) 0) as [| _]; [lia |].
    destruct (histc_edges (view_column S)) as [lo hi].
    apply Ok_inj in Hh. subst hist.
    apply in_map_iff in Hc. destruct Hc as (b & <- & _).
    pose proof (bin_count_le lo hi (bins args) (view_column S) b) as Hle.
    rewrite view_column_length in Hle. simpl in Hle.
    split.
    + apply Qle_shift_div_l; auto. rewrite Qmult_0_l.
      change 0 with (inject_Z 0). rewrite <- Zle_Qle. lia.
    + apply Qle_shift_div_r; auto. rewrite Qmult_1_l, Hsum.
      rewrite <- Zle_Qle. lia.
Qed.

Lemma X14_histogram_entries_are_fractions_witness :
  exists h : list Q,
    calculate_histogram histogram_only_args two_nodes three_nodes_t
    = Ok (map Fin h)
    /\ forall q, In q h -> 0 <= q <= 1.
Proof.
  apply (X14_histogram_entries_are_fractions histogram_only_args
           two_nodes three_nodes_t);
    [reflexivity | reflexivity | simpl; lia | simpl; lia].
Defined.

End MoreHistogramFacts.

(** ** The histogram does not depend on the order of the nodes *)

Import Permutation.

Section HistogramInvariance.

Lemma list_min_attained (l : list Q) (x0 : Q) :
  exists y, In y (x0 :: l) /\ list_min x0 l == y.
Proof.
  unfold list_min. revert x0.
  induction l as [| a l IH]; intros x0; simpl.
  - exists x0. split; [now left | reflexivity].
  - destruct (IH (Qmin x0 a)) as (y & [<- | Hy] & E).
    + destruct (Q.min_dec x0 a) as [Hm | Hm].
      * exists x0. split; [now left | now rewrite E].
      * exists a. split; [right; now left | now rewrite E].
    + exists y. split; [right; now right | exact E].
Qed.

Lemma list_max_attained (l : list Q) (x0 : Q) :
  exists y, In y (x0 :: l) /\ list_max x0 l == y.
Proof.
  unfold list_max. revert x0.
  induction l as [| a l IH]; intros x0; simpl.
  - exists x0. split; [now left | reflexivity].
  - destruct (IH (Qmax x0 a)) as (y & [<- | Hy] & E).
    + destruct (Q.max_dec x0 a) as [Hm | Hm].
      * exists x0. split; [now left | now rewrite E].
      * exists a. split; [right; now left | now rewrite E].
    + exists y. split; [right; now right | exact E].
Qed.

Lemma list_min_below (l : list Q) (x0 y : Q) :
  In y (x0 :: l) -> list_min x0 l <= y.
Proof.
  destruct (list_min_le l x0) as [H0 Hin].
  intros [<- | Hy]; auto.
Qed.

Lemma list_max_above (l : list Q) (x0 y : Q) :
  In y (x0 :: l) -> y <= list_max x0 l.
Proof.
  destruct (list_max_ge l x0) as [H0 Hin].
  intros [<- | Hy]; auto.
Qed.

Lemma list_min_perm (x x' : Q) (l l' : list Q) :
  Permutation (x :: l) (x' :: l') -> list_min x l == list_min x' l'.
Proof.
  intros Hp. apply Qle_antisym.
  - destruct (list_min_attained l' x') as (y & Hy & ->).
    apply list_min_below. eapply Permutation_in; [symmetry; exact Hp | exact Hy].
  - destruct (list_min_attained l x) as (y & Hy & ->).
    apply list_min_below. eapply Permutation_in; [exact Hp | exact Hy].
Qed.

Lemma list_max_perm (x x' : Q) (l l' : list Q) :
  Permutation (x :: l) (x' :: l') -> list_max x l == list_max x' l'.
Proof.
  intros Hp. apply Qle_antisym.
  - destruct (list_max_attained l x) as (y & Hy & ->).
    apply list_max_above. eapply Permutation_in; [exact Hp | exact Hy].
  - destruct (list_max_attained l' x') as (y & Hy & ->).
    apply list_max_above. eapply Permutation_in; [symmetry; exact Hp | exact Hy].
Qed.

Lemma Qeq_bool_comp (a b a' b' : Q) :
  a == a' -> b == b' -> Qeq_bool a b = Qeq_bool a' b'.
Proof.
  intros Ha Hb.
  destruct (Qeq_bool a b) eqn:E, (Qeq_bool a' b') eqn:E'; auto.
  - apply Qeq_bool_iff in E. apply Qeq_bool_neq in E'.
    exfalso. apply E'. now rewrite <- Ha, <- Hb.
  - apply Qeq_bool_iff in E'. apply Qeq_bool_neq in E.
    exfalso. apply E. now rewrite Ha, Hb.
Qed.

(** Reordering the data moves the bin edges at most to another
    representation of the same rationals. *)
Lemma histc_edges_perm (l l' : list Q) :
  Permutation l l' ->
  fst (histc_edges l) == fst (histc_edges l')
  /\ snd (histc_edges l) == snd (histc_edges l').
Proof.
  intros Hp. unfold histc_edges.
  destruct l as [| x t], l' as [| x' t'].
  - split; reflexivity.
  - apply Permutation_nil in Hp. discriminate.
  - symmetry in Hp. apply Permutation_nil in Hp. discriminate.
  - pose proof (list_min_perm Hp) as Hm. pose proof (list_max_perm Hp) as HM.
    rewrite (Qeq_bool_comp Hm HM).
    destruct (Qeq_bool (list_min x' t') (list_max x' t')); simpl;
      split; auto; [now rewrite Hm | now rewrite HM].
Qed.

Lemma bin_index_comp (lo hi lo' hi' : Q) (nbins : Z) (x : Q) :
  lo == lo' -> hi == hi' ->
  bin_index lo hi nbins x = bin_index lo' hi' nbins x.
Proof.
  intros Hl Hh. unfold bin_index.
  assert (E : (x - lo) * inject_Z nbins / (hi - lo)
              == (x - lo') * inject_Z nbins / (hi' - lo'))
    by now rewrite Hl, Hh.
  now rewrite (Qfloor_comp _ _ E).
Qed.

Lemma in_range_comp (lo hi lo' hi' x : Q) :
  lo == lo' -> hi == hi' -> in_range lo hi x = in_range lo' hi' x.
Proof.
  intros Hl Hh. unfold in_range.
  destruct (Qlt_le_dec x lo) as [H1 | H1], (Qlt_le_dec x lo') as [H1' | H1'];
    destruct (Qlt_le_dec hi x) as [H2 | H2], (Qlt_le_dec hi' x) as [H2' | H2'];
    try reflexivity; exfalso;
    rewrite ?Hl, ?Hh in *;
    solve [ exact (Qlt_not_le _ _ H1 H1')
          | exact (Qlt_not_le _ _ H1' H1)
          | exact (Qlt_not_le _ _ H2 H2')
          | exact (Qlt_not_le _ _ H2' H2) ].
Qed.

Lemma filter_length_perm {A} (f : A -> bool) (l l' : list A) :
  Permutation l l' -> length (filter f l) = length (filter f l').
Proof.
  induction 1 as [| a l l' _ IH | a b l | l l' l'' _ IH1 _ IH2]; simpl.
  - reflexivity.
  - destruct (f a); simpl; now rewrite IH.
  - destruct (f a), (f b); reflexivity.
  - congruence.
Qed.

Lemma histc_perm (l l' : list Q) (nbins : Z) :
  Permutation l l' -> histc l nbins = histc l' nbins.
Proof.
  intros Hp. unfold histc.
  destruct (nbins <=? 0)%Z; [reflexivity |].
  destruct (histc_edges_perm Hp) as [Hlo Hhi].
  destruct (histc_edges l) as [lo hi], (histc_edges l') as [lo' hi'].
  simpl in Hlo, Hhi. f_equal. apply map_ext. intros b.
  do 2 f_equal. unfold bin_count.
  rewrite (filter_length_perm _ Hp).
  f_equal. apply filter_ext. intros x.
  now rewrite (in_range_comp x Hlo Hhi), (bin_index_comp nbins x Hlo Hhi).
Qed.

Lemma flat_map_pointwise_perm {A B} (f g : A -> list B) (l : list A) :
  (forall a, Permutation (f a) (g a)) ->
  Permutation (flat_map f l) (flat_map g l).
Proof.
  intros H. induction l as [| a l IH]; simpl.
  - constructor.
  - apply Permutation_app; auto.
Qed.

Lemma flat_map_after_map {A B D} (f : B -> list D) (g : A -> B) (l : list A) :
  flat_map f (map g l) = flat_map (fun a => f (g a)) l.
Proof. induction l as [| a l IH]; simpl; congruence. Qed.

(** X16: the histogram feature is invariant under reordering the nodes
    of either graph: permuting the rows of the first embedding matrix
    or the columns of the (transposed) second one leaves the result of
    [calculate_histogram] unchanged, errors included. *)
Theorem X16_histogram_invariant_under_node_order
    (args : Args) (A B : Matrix) (sigma tau : nat -> nat) :
  Permutation (map sigma (seq 0 (nrows A))) (seq 0 (nrows A)) ->
  Permutation (map tau (seq 0 (ncols B))) (seq 0 (ncols B)) ->
  calculate_histogram args (permute_rows sigma A) (permute_cols tau B)
  = calculate_histogram args A B.
Proof.
  intros Hs Ht. unfold calculate_histogram, mm. simpl.
  destruct (ncols A =? nrows B)%nat; [| reflexivity].
  match goal with
  | |- match histc ?l1 _ with _ => _ end = match histc ?l2 _ with _ => _ end =>
      assert (Hp : Permutation l1 l2)
  end.
  { unfold view_column. simpl.
    set (S := fun i j => dot (ncols A) (fun k => entry A i k)
                             (fun k => entry B k j)).
    transitivity (flat_map (fun i => map (fun j => S i j) (seq 0 (ncols B)))
                           (map sigma (seq 0 (nrows A)))).
    - rewrite flat_map_after_map. apply flat_map_pointwise_perm. intros i.
      change (map (fun j => S (sigma i) (tau j)) (seq 0 (ncols B)))
        with (map (fun j => (fun t => S (sigma i) t) (tau j)) (seq 0 (ncols B))).
      rewrite <- (map_map tau (fun t => S (sigma i) t)).
      apply Permutation_map. exact Ht.
    - apply Permutation_flat_map. exact Hs. }
  now rewrite (histc_perm (bins args) Hp).
Qed.

Lemma X16_histogram_invariant_under_node_order_witness :
  calculate_histogram histogram_only_args
    (permute_rows (fun i => (1 - i)%nat) two_nodes)
    (permute_cols (fun j => ((j + 1) mod 3)%nat) three_nodes_t)
  = calculate_histogram histogram_only_args two_nodes three_nodes_t.
Proof.
  apply X16_histogram_invariant_under_node_order.
  - simpl. apply perm_swap.
  - simpl. apply Permutation_sym, (Permutation_cons_append [1; 2]%nat 0%nat).
Defined.

End HistogramInvariance.

(** ** The ranking shown for a query graph *)

Import Query.

Section QueryFacts.
Context {C : Collaborators}.
Variables Path Id : Type.
Variable test_paths : list Path.
Variable training_paths : list Path.
Variable get_file_id_from_path : Path -> Id.
Variables key0 key1 : Pair -> Z.

Lemma py_index_nonneg {A} (l : list A) (i : nat) (d : A) :
  (i < length l)%nat -> py_index l (Z.of_nat i) = QOk (nth i l d).
Proof.
  intros Hi. unfold py_index.
  destruct (Z.ltb_spec (Z.of_nat i) 0); [lia |].
  destruct (Z.ltb_spec (Z.of_nat i) 0); [lia |].
  rewrite Nat2Z.id. now rewrite (nth_error_nth' l d Hi).
Qed.

Lemma py_index_beyond {A} (l : list A) (i : nat) :
  (length l <= i)%nat -> py_index l (Z.of_nat i) = QErr IndexError.
Proof.
  intros Hi. unfold py_index.
  destruct (Z.ltb_spec (Z.of_nat i) 0); [lia |].
  destruct (Z.ltb_spec (Z.of_nat i) 0); [lia |].
  rewrite Nat2Z.id. now rewrite (proj2 (nth_error_None l i) Hi).
Qed.

Lemma py_index_from_end {A} (l : list A) (i : nat) (d : A) :
  (1 <= i <= length l)%nat ->
  py_index l (- Z.of_nat i) = QOk (nth (length l - i) l d).
Proof.
  intros Hi. unfold py_index.
  destruct (Z.ltb_spec (- Z.of_nat i) 0); [| lia].
  destruct (Z.ltb_spec (- Z.of_nat i + Z.of_nat (length l)) 0); [lia |].
  replace (Z.to_nat (- Z.of_nat i + Z.of_nat (length l)))
    with (length l - i)%nat by lia.
  rewrite (nth_error_nth' l d); [reflexivity | lia].
Qed.

Lemma mapM_length {A B} (f : A -> qresult B) (l : list A) (bs : list B) :
  mapM f l = QOk bs -> length bs = length l.
Proof.
  revert bs. induction l as [| a l IH]; intros bs; simpl.
  - intros [= <-]. reflexivity.
  - destruct (f a); [| discriminate].
    destruct (mapM f l) as [bs' |]; [| discriminate].
    intros [= <-]. simpl. now rewrite (IH bs').
Qed.

Lemma mapM_ok {A B} (f : A -> qresult B) (g : A -> B) (l : list A) :
  (forall a, In a l -> f a = QOk (g a)) -> mapM f l = QOk (map g l).
Proof.
  intros H. induction l as [| a l IH]; simpl; [reflexivity |].
  rewrite (H a (or_introl eq_refl)), (IH (fun b Hb => H b (or_intror Hb))).
  reflexivity.
Qed.

Lemma insert_perm (x : Id * Q) (l : list (Id * Q)) :
  Permutation (insert x l) (x :: l).
Proof.
  induction l as [| y l IH]; simpl.
  - reflexivity.
  - destruct (Qle_bool (snd x) (snd y)); [reflexivity |].
    rewrite IH. apply perm_swap.
Qed.

Lemma sort_by_score_perm (l : list (Id * Q)) :
  Permutation (sort_by_score l) l.
Proof.
  induction l as [| x l IH]; simpl; [reflexivity |].
  now rewrite insert_perm, IH.
Qed.

Lemma ascending_cons (x : Id * Q) (l : list (Id * Q)) :
  (forall y, In y l -> snd x <= snd y) -> ascending l -> ascending (x :: l).
Proof.
  intros Hx Hl i j d Hij. simpl in Hij.
  destruct i as [| i], j as [| j]; simpl; try lia.
  - apply Qle_refl.
  - apply Hx, nth_In. lia.
  - apply Hl. lia.
Qed.

Lemma ascending_inv (x : Id * Q) (l : list (Id * Q)) :
  ascending (x :: l) ->
  (forall y, In y l -> snd x <= snd y) /\ ascending l.
Proof.
  intros H. split.
  - intros y Hy. destruct (In_nth l y x Hy) as (k & Hk & <-).
    apply (H 0%nat (S k) x). simpl. lia.
  - intros i j d Hij. apply (H (S i) (S j) d). simpl. lia.
Qed.

Lemma insert_ascending (x : Id * Q) (l : list (Id * Q)) :
  ascending l -> ascending (insert x l).
Proof.
  induction l as [| y l IH]; intros Hl; simpl.
  - apply ascending_cons; [intros y [] | exact Hl].
  - destruct (ascending_inv Hl) as [Hy Hl'].
    destruct (Qle_bool (snd x) (snd y)) eqn:E.
    + apply Qle_bool_iff in E. apply ascending_cons; [| exact Hl].
      intros z [<- | Hz]; [exact E |].
      eapply Qle_trans; [exact E | now apply Hy].
    + apply ascending_cons; [| now apply IH].
      intros z Hz.
      apply (Permutation_in _ (insert_perm x l)) in Hz.
      destruct Hz as [<- | Hz]; [| now apply Hy].
      destruct (Qlt_le_dec (snd y) (snd x)) as [Hlt | Hle].
      * now apply Qlt_le_weak.
      * apply Qle_bool_iff in Hle. congruence.
Qed.

Lemma sort_by_score_ascending (l : list (Id * Q)) :
  ascending (sort_by_score l).
Proof.
  induction l as [| x l IH]; simpl.
  - intros i j d Hij. simpl in Hij. lia.
  - now apply insert_ascending.
Qed.

(** The entries are the candidates of the query graph with the model's
    predictions, in test order. *)
Lemma rank_entries_scores (p : Params) (q : Z) (pairs : list Pair)
    (entries : list (Id * Q)) :
  rank_entries training_paths get_file_id_from_path key0 key1 p q pairs
  = QOk entries ->
  map snd entries
  = map (fun key => model false p (get_data key Test))
        (filter (fun key => (key0 key =? q)%Z) pairs).
Proof.
  revert entries. induction pairs as [| key rest IH]; intros entries; simpl.
  - intros [= <-]. reflexivity.
  - destruct (key0 key =? q)%Z.
    + destruct (py_index training_paths (key1 key)); [| discriminate].
      destruct (rank_entries _ _ _ _ _ _ rest) as [es |]; [| discriminate].
      intros [= <-]. simpl. now rewrite (IH es).
    + apply IH.
Qed.

Lemma shown_needs_401 (l : list (Id * Q)) :
  (length l < 401)%nat -> shown l = QErr IndexError.
Proof.
  intros Hl. unfold shown.
  destruct (mapM _ (seq 0 5)) as [lowest | []]; [| reflexivity].
  change 400%Z with (Z.of_nat 400).
  rewrite py_index_beyond by lia. reflexivity.
Qed.

Lemma shown_spec (l : list (Id * Q)) (d : Id * Q) :
  (401 <= length l)%nat ->
  shown l
  = QOk (map (fun i => nth i l d) (seq 0 5)
         ++ [nth 400 l d]
         ++ map (fun i => nth (length l - i) l d) (seq 1 5)).
Proof.
  intros Hl. unfold shown.
  rewrite (mapM_ok (fun i => py_index l (Z.of_nat i)) (fun i => nth i l d)).
  - change 400%Z with (Z.of_nat 400).
    rewrite (py_index_nonneg l d) by lia.
    rewrite (mapM_ok (fun i => py_index l (- Z.of_nat i))
                     (fun i => nth (length l - i) l d)).
    + reflexivity.
    + intros i Hi. apply in_seq in Hi. apply py_index_from_end. lia.
  - intros i Hi. apply in_seq in Hi. apply py_index_nonneg. lia.
Qed.

Lemma rank_entries_length (p : Params) (q : Z) (entries : list (Id * Q)) :
  rank_entries training_paths get_file_id_from_path key0 key1 p q
    test_graph_index_pairs = QOk entries ->
  length entries = length (candidates key0 q).
Proof.
  intros H. apply rank_entries_scores in H.
  apply (f_equal (@length Q)) in H. rewrite !length_map in H. exact H.
Qed.

(** What a returning [show_model_query] went through. *)
Lemma show_model_query_ok_inv (p : Params) (q : Z) (out : list (Id * Q)) :
  show_model_query test_paths training_paths get_file_id_from_path
    key0 key1 p q = QOk out ->
  exists entries,
    rank_entries training_paths get_file_id_from_path key0 key1 p q
      test_graph_index_pairs = QOk entries
    /\ (401 <= length (sort_by_score entries))%nat
    /\ (401 <= length (candidates key0 q))%nat
    /\ forall d,
         out = map (fun i => nth i (sort_by_score entries) d) (seq 0 5)
               ++ [nth 400 (sort_by_score entries) d]
               ++ map (fun i => nth (length (sort_by_score entries) - i)
                                    (sort_by_score entries) d) (seq 1 5).
Proof.
  unfold show_model_query.
  destruct (py_index test_paths q) as [_ |]; [| discriminate].
  destruct (rank_entries _ _ _ _ _ _ _) as [entries |] eqn:E;
    [| discriminate].
  intros Hs. exists entries. split; [reflexivity |].
  assert (Hlen : (401 <= length (sort_by_score entries))%nat).
  { destruct (Nat.lt_ge_cases (length (sort_by_score entries)) 401)
      as [Hlt | Hge]; [| exact Hge].
    rewrite (shown_needs_401 (sort_by_score entries) Hlt) in Hs.
    discriminate. }
  split; [exact Hlen |]. split.
  - rewrite <- (rank_entries_length _ _ E).
    now rewrite <- (Permutation_length (sort_by_score_perm entries)).
  - intros d. rewrite (shown_spec (sort_by_score entries) d Hlen) in Hs.
    now injection Hs.
Qed.

(** X17: [show_model_query] needs at least 401 test pairs for the query
    graph: with fewer it raises IndexError (at the latest at the
    hard-coded position 400), and when it returns it has shown exactly
    11 entries. *)
Theorem X17_show_model_query_needs_401_candidates (p : Params) (q : Z) :
  ((length (candidates key0 q) < 401)%nat ->
   show_model_query test_paths training_paths get_file_id_from_path
     key0 key1 p q = QErr IndexError)
  /\ (forall out,
        show_model_query test_paths training_paths get_file_id_from_path
          key0 key1 p q = QOk out ->
        (401 <= length (candidates key0 q))%nat /\ length out = 11%nat).
Proof.
  split.
  - intros Hlt. unfold show_model_query.
    destruct (py_index test_paths q) as [_ | []]; [| reflexivity].
    destruct (rank_entries _ _ _ _ _ _ _) as [entries | []] eqn:E;
      [| reflexivity].
    apply shown_needs_401.
    rewrite (Permutation_length (sort_by_score_perm entries)).
    now rewrite (rank_entries_length _ _ E).
  - intros out Hs.
    destruct (show_model_query_ok_inv _ _ Hs) as (entries & _ & Hlen & Hc & Hout).
    split; [exact Hc |].
    destruct (sort_by_score entries) as [| d l] eqn:El; [simpl in Hlen; lia |].
    rewrite (Hout d). reflexivity.
Qed.

(** X18: when [show_model_query] returns, what it shows is read off the
    candidates of the query graph sorted by predicted similarity: the
    five lowest-scored in ascending order, the entry at position 400,
    then the five highest-scored in descending order; in particular the
    first entry shown has the lowest and the seventh the highest
    predicted similarity of all candidates. *)
Theorem X18_show_model_query_shows_the_extremes
    (p : Params) (q : Z) (out : list (Id * Q)) :
  show_model_query test_paths training_paths get_file_id_from_path
    key0 key1 p q = QOk out ->
  exists entries ranked,
    rank_entries training_paths get_file_id_from_path key0 key1 p q
      test_graph_index_pairs = QOk entries
    /\ map snd entries
       = map (fun key => model false p (get_data key Test)) (candidates key0 q)
    /\ Permutation ranked entries
    /\ ascending ranked
    /\ (forall d,
          out = map (fun i => nth i ranked d) (seq 0 5)
                ++ [nth 400 ranked d]
                ++ map (fun i => nth (length ranked - i) ranked d) (seq 1 5))
    /\ (forall d e, In e entries ->
          snd (nth 0 out d) <= snd e /\ snd e <= snd (nth 6 out d)).
Proof.
  intros Hs.
  destruct (show_model_query_ok_inv _ _ Hs) as (entries & E & Hlen & _ & Hout).
  pose proof (sort_by_score_perm entries) as Hperm.
  exists entries, (sort_by_score entries).
  split; [exact E |]. split; [now apply rank_entries_scores |].
  split; [exact Hperm |]. split; [apply sort_by_score_ascending |].
  split; [exact Hout |].
  intros d e He. rewrite (Hout d). cbn [map seq app nth].
  apply (Permutation_in _ (Permutation_sym Hperm)) in He.
  destruct (In_nth _ _ d He) as (k & Hk & <-).
  split; apply sort_by_score_ascending; lia.
Qed.

End QueryFacts.

Lemma X17_show_model_query_needs_401_candidates_witness :
  @show_model_query (toy dip_loss) nat nat [0; 1]%nat [0; 1; 2; 3]%nat
    (fun path => path) (fun key => 0%Z) (fun key => Z.of_nat key) 3 0%Z
  = QErr IndexError.
Proof.
  apply (proj1 (@X17_show_model_query_needs_401_candidates (toy dip_loss)
                  nat nat [0; 1]%nat [0; 1; 2; 3]%nat
                  (fun path => path) (fun key => 0%Z) (fun key => Z.of_nat key)
                  3 0%Z)).
  simpl. lia.
Defined.

Lemma X18_show_model_query_shows_the_extremes_witness :
  exists out,
    @show_model_query many_pairs nat nat [0]%nat (seq 0 401)
      (fun path => path) (fun key => 0%Z) (fun key => Z.of_nat key) tt 0%Z
    = QOk out
    /\ forall d e,
         In e (map (fun b => (b, inject_Z (Z.of_nat (400 - b)))) (seq 0 401)) ->
         snd (nth 0 out d) <= snd e /\ snd e <= snd (nth 6 out d).
Proof.
  destruct (@show_model_query many_pairs nat nat [0]%nat (seq 0 401)
              (fun path => path) (fun key => 0%Z) (fun key => Z.of_nat key)
              tt 0%Z) as [out | e] eqn:E.
  - exists out. split; [reflexivity |].
    destruct (@X18_show_model_query_shows_the_extremes many_pairs
                nat nat [0]%nat (seq 0 401)
                (fun path => path) (fun key => 0%Z) (fun key => Z.of_nat key)
                tt 0%Z out E)
      as (entries & ranked & Hr & _ & _ & _ & _ & Hext).
    vm_compute in Hr. injection Hr as <-.
    intros d e He. apply Hext. vm_compute in He. exact He.
  - exfalso. vm_compute in E. discriminate.
Defined.

(** ** The figures reported after testing *)

Section ReportFacts.
Context {C : Collaborators}.
Variable args : Args.



Lemma Qsquare_nonneg (x : Q) : 0 <= x * x.
Proof.
  destruct (Qlt_le_dec x 0) as [Hneg | Hpos].
  - setoid_replace (x * x) with ((- x) * (- x)) by ring.
    assert (0 <= - x).
    { apply Qlt_le_weak in Hneg. apply Qopp_le_compat in Hneg. exact Hneg. }
    now apply Qmult_le_0_compat.
  - now apply Qmult_le_0_compat.
Qed.

Lemma sumQ_nonneg (l : list Q) : (forall x, In x l -> 0 <= x) -> 0 <= sumQ l.
Proof.
  induction l as [| a l IH]; intros H.
  - apply Qle_refl.
  - rewrite sumQ_cons.
    replace 0 with (0 + 0) by reflexivity.
    apply Qplus_le_compat; [apply H; now left |].
    apply IH. intros x Hx. apply H. now right.
Qed.

Lemma sumQ_all_zero (l : list Q) : (forall x, In x l -> x == 0) -> sumQ l == 0.
Proof.
  induction l as [| a l IH]; intros H.
  - reflexivity.
  - assert (Ha : a == 0) by (apply H; now left).
    rewrite sumQ_cons, Ha, IH.
    + reflexivity.
    + intros x Hx. apply H. now right.
Qed.

Lemma sumQ_constant (l : list Q) (c : Q) :
  (forall x, In x l -> x == c) ->
  sumQ l == c * inject_Z (Z.of_nat (length l)).
Proof.
  induction l as [| a l IH]; intros H.
  - unfold sumQ. simpl. ring.
  - assert (Ha : a == c) by (apply H; now left).
    cbn [length]. rewrite sumQ_cons, Ha, IH.
    + rewrite Nat2Z.inj_succ, <- Z.add_1_r, inject_Z_plus. ring.
    + intros x Hx. apply H. now right.
Qed.

Lemma mean_squared_deviation_spec (l : list Q) :
  l <> [] ->
  exists mean dev,
    np_mean l = Fin mean
    /\ mean_squared_deviation l = Fin dev
    /\ 0 <= dev
    /\ forall c, (forall x, In x l -> x == c) -> mean == c /\ dev == 0.
Proof.
  intros Hne. destruct l as [| a l]; [contradiction |].
  set (l0 := a :: l) in *.
  set (n := inject_Z (Z.of_nat (length l0))).
  assert (Hn : 0 < n).
  { subst n. change 0 with (inject_Z 0). rewrite <- Zlt_Qlt. simpl. lia. }
  assert (Hn0 : ~ n == 0).
  { intros E. rewrite E in Hn. exact (Qlt_irrefl _ Hn). }
  exists (sumQ l0 / n),
         (sumQ (map (fun x => (x - sumQ l0 / n) * (x - sumQ l0 / n)) l0) / n).
  split; [reflexivity |]. split.
  { unfold mean_squared_deviation. simpl np_mean at 1. fold l0. fold n.
    unfold np_mean. simpl map. cbn [length]. rewrite length_map.
    reflexivity. }
  split.
  - apply Qle_shift_div_l; auto. rewrite Qmult_0_l.
    apply sumQ_nonneg. intros x Hx.
    apply in_map_iff in Hx. destruct Hx as (y & <- & _).
    apply Qsquare_nonneg.
  - intros c Hc.
    assert (Hm : sumQ l0 / n == c).
    { rewrite (sumQ_constant l0 Hc). fold n. field. exact Hn0. }
    split; [exact Hm |].
    rewrite sumQ_all_zero.
    + unfold Qdiv. apply Qmult_0_l.
    + intros x Hx. apply in_map_iff in Hx. destruct Hx as (y & <- & Hy).
      assert (Hy' : y == c) by now apply Hc.
      rewrite Hy', Hm. ring.
Qed.

(** X20: for a non-empty test set the means and the mean squared
    deviations that [print_evaluation] prints are finite, the
    deviations are never negative, and the predicted delta is zero when
    all predictions are equal (a model that predicts one constant). *)
Theorem X20_print_evaluation_deviations (r : TestReport) :
  ground_truth r <> [] -> prediction_list r <> [] ->
  exists mean_gt dev_gt mean_p dev_p,
    mean_ground_truth (print_evaluation r) = Fin mean_gt
    /\ delta (print_evaluation r) = Fin dev_gt
    /\ mean_predicted (print_evaluation r) = Fin mean_p
    /\ predicted_delta (print_evaluation r) = Fin dev_p
    /\ 0 <= dev_gt /\ 0 <= dev_p
    /\ forall c, (forall x, In x (prediction_list r) -> x == c) ->
                 mean_p == c /\ dev_p == 0.
Proof.
  intros Hg Hp.
  destruct (mean_squared_deviation_spec Hg) as (mg & dg & G1 & G2 & G3 & _).
  destruct (mean_squared_deviation_spec Hp) as (mp & dp & P1 & P2 & P3 & P4).
  exists mg, dg, mp, dp. unfold print_evaluation.
  cbn [mean_ground_truth delta mean_predicted predicted_delta].
  split; [exact G1 |]. split; [exact G2 |]. split; [exact P1 |].
  split; [exact P2 |]. split; [exact G3 |]. split; [exact P3 | exact P4].
Qed.

(** X21: with validation enabled, [min_error] after any number of
    epochs is a finite value of at most 100 that no recorded validation
    error undercuts; it is one of the recorded errors as soon as it is
    below 100. *)
Theorem X21_min_error_bounds_history (st0 : Trainer) (n : nat) :
  validate_enabled args = true -> batch_size args <> 0%Z ->
  exists st m,
    train_epochs args n st0 = Ret tt st
    /\ min_error st = Fin m
    /\ m <= 100
    /\ (forall e, In e (epoch_loss_list st) -> fl_ltb e (Fin m) = false)
    /\ (m < 100 -> In (Fin m) (epoch_loss_list st)).
Proof.
  intros Hv Hbs.
  destruct (@epochs_invariant C args Hv Hbs n st0)
    as (st & Hrun & _ & _ & Hbest).
  exists st.
  destruct Hbest as [(Hm & _ & _ & _ & Hall)
                    | (k & m & st_k & (Hk & Hmin & _) & Hlt & Hm & _)].
  - exists 100. repeat split; auto; [discriminate |].
    intros H. exfalso. exact (Qlt_irrefl _ H).
  - exists m. repeat split; auto.
    + now apply Qlt_le_weak.
    + intros e He. destruct (In_nth_error _ _ He) as (j & Hj). eauto.
    + intros _. eapply nth_error_In; eauto.
Qed.

End ReportFacts.


Lemma X20_print_evaluation_deviations_witness :
  exists dev_p,
    predicted_delta (print_evaluation (mkReport [0; 0] [1; 3] [2; 2] [] []))
    = Fin dev_p
    /\ dev_p == 0.
Proof.
  destruct (@X20_print_evaluation_deviations
              (mkReport [0; 0] [1; 3] [2; 2] [] []))
    as (mg & dg & mp & dp & _ & _ & _ & H & _ & _ & Hc);
    [discriminate | discriminate |].
  exists dp. split; [exact H |].
  apply (Hc 2). intros x [<- | [<- | []]]; reflexivity.
Defined.

Lemma X21_min_error_bounds_history_witness :
  exists st m,
    @train_epochs (toy dip_loss) histogram_only_args 3
      (toy_trainer dip_loss 3 None) = Ret tt st
    /\ min_error st = Fin m /\ m <= 100.
Proof.
  destruct (@X21_min_error_bounds_history (toy dip_loss) histogram_only_args
              (toy_trainer dip_loss 3 None) 3 eq_refl ltac:(discriminate))
    as (st & m & H1 & H2 & H3 & _).
  exists st, m. auto.
Defined.
